(** * Reminderoo: the reminder scheduling core of [index.js]

    A shallow embedding of the calendar reminder service and the
    properties of its offset parser, reminder scheduling, dispatch and
    template cache.

    Modelling conventions.
    - A JavaScript number that the program computes is a double whose
      value is an integer, an infinity or [NaN] ([number]).  Every
      arithmetic result is rounded as IEEE 754 does: to 53 significant
      bits, to the nearest, ties to even, and to an infinity past the
      largest double.  The sign of zero is not modelled.  Time values are
      clipped to the range of [Date] (8.64e15 ms), as [new Date(v)] does.
    - Strings are sequences of ASCII characters.
    - A property read on an object that lacks the property yields
      [undefined]: an optional field that is [None].
    - Effects are threaded through a [World]; a computation returns a
      completion: a normal value or a thrown error.  An [async] function is
      a computation whose completion is the settlement of its promise
      ([Normal]: fulfilled, [Throw]: rejected); the interleaving of
      callbacks at an [await] is not modelled.  The external services
      (file system, clock, calendar, chat and shout-out endpoints, template
      engine, date parser) are taken from an environment [Env].
    - The variant of the program with a [log] helper has the same control
      flow; its error reports are the [console] entries of the model, its
      informational lines are left out. *)

From Stdlib Require Import ZArith List Ascii String Lia DecimalString DecimalN.
From stdpp Require Import base gmap strings list.

Local Open Scope string_scope.
Local Open Scope Z_scope.

(** ** JavaScript values *)

Module Js.

(** A number: a double with an integer value, an infinity or [NaN]. *)
Inductive number : Set :=
| Num (z : Z)
| Infinity (negative : bool)
| NaN.

(** The multiple of [2 ^ e] nearest to [a], the even one of two that are
    equally near (for [0 <= a] and [0 < e]). *)
Definition round_nearest_even (e a : Z) : Z :=
  let q := a / 2 ^ e in
  let r := a mod 2 ^ e in
  let half := 2 ^ (e - 1) in
  if r <? half then q * 2 ^ e
  else if half <? r then (q + 1) * 2 ^ e
  else if Z.even q then q * 2 ^ e else (q + 1) * 2 ^ e.

(** An integer rounded to 53 significant bits. *)
Definition round53 (z : Z) : Z :=
  let a := Z.abs z in
  let e := Z.log2 a - 52 in
  if e <=? 0 then z else Z.sgn z * round_nearest_even e a.

(** The double nearest to an integer: what an operation whose exact result
    is [z] returns.  The largest double is [2 ^ 1024 - 2 ^ 971]. *)
Definition of_integer (z : Z) : number :=
  let r := round53 z in
  if 2 ^ 1024 <=? Z.abs r then Infinity (z <? 0) else Num r.

(** [a * b] *)
Definition mul (a b : number) : number :=
  match a, b with
  | Num x, Num y => of_integer (x * y)
  | Num x, Infinity s | Infinity s, Num x =>
      if x =? 0 then NaN else Infinity (xorb s (x <? 0))
  | Infinity s, Infinity s' => Infinity (xorb s s')
  | _, _ => NaN
  end.

(** [a - b] *)
Definition sub (a b : number) : number :=
  match a, b with
  | Num x, Num y => of_integer (x - y)
  | Num _, Infinity s => Infinity (negb s)
  | Infinity s, Num _ => Infinity s
  | Infinity s, Infinity s' => if Bool.eqb s s' then NaN else Infinity s
  | _, _ => NaN
  end.

(** [a > b] on numbers: false as soon as one side is [NaN]. *)
Definition gt (a b : number) : bool :=
  match a, b with
  | Num x, Num y => y <? x
  | Num _, Infinity s => s
  | Infinity s, Num _ => negb s
  | Infinity s, Infinity s' => negb s && s'
  | _, _ => false
  end.

(** An error object: its constructor name and its message. *)
Record Error : Set := mkError { name : string; message : string }.

(** Completion of an evaluation. *)
Inductive Completion (A : Type) : Type :=
| Normal (a : A)
| Throw (e : Error).
Arguments Normal {A} a.
Arguments Throw {A} e.

(** [ToString] of a value that is a string or [undefined]. *)
Definition ToString (v : option string) : string :=
  match v with
  | Some s => s
  | None => "undefined"
  end.

(** [a || b] where [a] is a string or [undefined]: the empty string and
    [undefined] are falsy. *)
Definition or_else (a b : option string) : option string :=
  match a with
  | Some "" => b
  | Some s => Some s
  | None => b
  end.

(** *** [String.prototype.split] with a one-character separator *)

Fixpoint split (sep : ascii) (s : string) : list string :=
  match s with
  | EmptyString => [EmptyString]
  | String c s' =>
      if Ascii.eqb c sep then EmptyString :: split sep s'
      else match split sep s' with
           | p :: ps => String c p :: ps
           | [] => [String c EmptyString]
           end
  end.

(** *** [parseInt] with the radix left out

    The value read is converted to the nearest double.  (For a decimal
    numeral of more than 20 significant digits the language lets an
    implementation approximate the value first; V8 converts it exactly.) *)

Definition StrWhiteSpaceChar (c : ascii) : bool :=
  let n := nat_of_ascii c in
  ((9 <=? n) && (n <=? 13) || (n =? 32))%nat.

Fixpoint TrimStart (s : string) : string :=
  match s with
  | EmptyString => EmptyString
  | String c s' => if StrWhiteSpaceChar c then TrimStart s' else s
  end.

(** The value of an alphanumeric character as a digit (up to radix 36). *)
Definition digit_value (c : ascii) : option Z :=
  let n := Z.of_nat (nat_of_ascii c) in
  if (48 <=? n) && (n <=? 57) then Some (n - 48)
  else if (97 <=? n) && (n <=? 122) then Some (n - 87)
  else if (65 <=? n) && (n <=? 90) then Some (n - 55)
  else None.

(** The longest prefix of [s] made of radix-[R] digits, read as an
    integer; [None] when that prefix is empty. *)
Fixpoint digits_prefix (R : Z) (s : string) (acc : Z) (seen : bool) : option Z :=
  let finish := if seen then Some acc else None in
  match s with
  | EmptyString => finish
  | String c s' =>
      match digit_value c with
      | Some v => if v <? R then digits_prefix R s' (acc * R + v) true else finish
      | None => finish
      end
  end.

Definition parseInt (inputString : string) : number :=
  let trimmed := TrimStart inputString in
  let '(sign, unsigned) :=
    match trimmed with
    | String "-" r => (-1, r)
    | String "+" r => (1, r)
    | _ => (1, trimmed)
    end in
  let '(R, digits) :=
    match unsigned with
    | String "0" (String "x" r) => (16, r)
    | String "0" (String "X" r) => (16, r)
    | _ => (10, unsigned)
    end in
  match digits_prefix R digits 0 false with
  | Some mathInt => of_integer (sign * mathInt)
  | None => NaN
  end.

End Js.

Import Js.

(** ** Offset parser *)

(** [function parseTimeToMinutes(timeString)]:
    [const [amount, unit, ] = timeString.split(' ')] and a [switch] on
    [unit]. *)
Definition parseTimeToMinutes (timeString : string) : Completion number :=
  let parts := split " " timeString in
  let amount := hd "" parts in
  let unit := nth_error parts 1 in
  match unit with
  | Some u =>
      if (u =? "day")%string || (u =? "days")%string then
        Normal (mul (mul (parseInt amount) (Num 24)) (Num 60))
      else if (u =? "hour")%string || (u =? "hours")%string then
        Normal (mul (parseInt amount) (Num 60))
      else if (u =? "minute")%string || (u =? "minutes")%string then
        Normal (parseInt amount)
      else Throw (mkError "Error" ("Unsupported time unit: " +:+ ToString unit))
  | None => Throw (mkError "Error" ("Unsupported time unit: " +:+ ToString unit))
  end.

(** ** Data model *)

(** A calendar event as the event source returns it.  Every item of a
    reply is taken to have its [start]; an item without it, on which
    reading [event.start.dateTime] would throw, is outside the model. *)
Record EventStart : Set := { dateTime : option string; date : option string }.

Record Event : Set := {
  event_id : string;
  summary : option string;
  start : EventStart;
  location : option string;
  description : option string;
  htmlLink : option string
}.

(** An entry of the notification configuration ([time], [type],
    [template]) or of [NOTIFICATION_TIMES] ([minutes], [originalTime]):
    one object type, a property that an object lacks is [None]. *)
Record Notification : Set := {
  time : option string;
  type : option string;
  template : option string;
  minutes : option number;
  originalTime : option string
}.

(** What [formatEventData] hands to a template. *)
Record EventData : Set := {
  eventTitle : option string;
  eventTime : string;
  eventLocation : string;
  eventDescription : string;
  eventLink : string
}.

(** A value found under a key of the [templates] object: a template
    compiled from a file's content, or a member inherited from
    [Object.prototype]. *)
Inductive Template : Set :=
| Compiled (content : string)
| Inherited (key : string).

(** A pending one-shot job of the scheduler: the date it was given and the
    variables its callback closes over. *)
Record Job : Set := {
  fireDate : number;
  job_event : Event;
  job_notification : Notification
}.

Module Slack.
Record Request : Set := { channel : option string; text : string; parse : string }.
End Slack.

Module HiBob.
Record Request : Set := {
  url : string;
  text : string;
  type : option string;
  visibility : option string
}.
End HiBob.

Module Calendar.
Record Request : Set := {
  calendarId : option string;
  timeMin : number;
  maxResults : number;
  singleEvents : bool;
  orderBy : string
}.
End Calendar.

(** The external services. *)
Record Env : Type := {
  (** [process.env] and [__dirname] *)
  process_env : string -> option string;
  dirname : string;
  (** the k-th reading of the system clock, a time value in milliseconds *)
  Date_now : nat -> Z;
  (** [Date.parse] and [Date.prototype.toLocaleString] on a time value *)
  Date_parse : string -> number;
  toLocaleString : number -> string;
  (** [fs.readFileSync(path, 'utf8')], when k reads were made before *)
  readFileSync : nat -> string -> Completion string;
  (** calling [Handlebars.compile(content)] on the event data *)
  Handlebars_render : string -> EventData -> Completion string;
  (** calling a member of [Object.prototype] as if it were a template *)
  call_inherited : string -> EventData -> Completion string;
  (** [calendar.events.list]: the reply to the k-th request *)
  calendar_events_list : nat -> Calendar.Request -> Completion (list Event);
  (** [slack.chat.postMessage] and [hibob.post]: the reply to the k-th request *)
  slack_chat_postMessage : nat -> Slack.Request -> Completion unit;
  hibob_post : nat -> HiBob.Request -> Completion unit
}.

(** The state the program reads and writes, with the traces of its calls
    to the external services. *)
Record World : Type := {
  templates : gmap string Template;
  jobs : list Job;
  console : list (string * Error);
  clock_reads : nat;
  fs_reads : list string;
  calendar_requests : list Calendar.Request;
  slack_requests : list Slack.Request;
  hibob_requests : list HiBob.Request;
  unhandledRejections : list Error
}.

Definition set_templates (t : gmap string Template) (w : World) : World :=
  {| templates := t; jobs := jobs w; console := console w;
     clock_reads := clock_reads w; fs_reads := fs_reads w;
     calendar_requests := calendar_requests w;
     slack_requests := slack_requests w; hibob_requests := hibob_requests w;
     unhandledRejections := unhandledRejections w |}.

Definition set_jobs (j : list Job) (w : World) : World :=
  {| templates := templates w; jobs := j; console := console w;
     clock_reads := clock_reads w; fs_reads := fs_reads w;
     calendar_requests := calendar_requests w;
     slack_requests := slack_requests w; hibob_requests := hibob_requests w;
     unhandledRejections := unhandledRejections w |}.

Definition set_console (c : list (string * Error)) (w : World) : World :=
  {| templates := templates w; jobs := jobs w; console := c;
     clock_reads := clock_reads w; fs_reads := fs_reads w;
     calendar_requests := calendar_requests w;
     slack_requests := slack_requests w; hibob_requests := hibob_requests w;
     unhandledRejections := unhandledRejections w |}.

Definition set_clock_reads (n : nat) (w : World) : World :=
  {| templates := templates w; jobs := jobs w; console := console w;
     clock_reads := n; fs_reads := fs_reads w;
     calendar_requests := calendar_requests w;
     slack_requests := slack_requests w; hibob_requests := hibob_requests w;
     unhandledRejections := unhandledRejections w |}.

Definition set_fs_reads (r : list string) (w : World) : World :=
  {| templates := templates w; jobs := jobs w; console := console w;
     clock_reads := clock_reads w; fs_reads := r;
     calendar_requests := calendar_requests w;
     slack_requests := slack_requests w; hibob_requests := hibob_requests w;
     unhandledRejections := unhandledRejections w |}.

Definition set_calendar_requests (r : list Calendar.Request) (w : World) : World :=
  {| templates := templates w; jobs := jobs w; console := console w;
     clock_reads := clock_reads w; fs_reads := fs_reads w;
     calendar_requests := r;
     slack_requests := slack_requests w; hibob_requests := hibob_requests w;
     unhandledRejections := unhandledRejections w |}.

Definition set_slack_requests (r : list Slack.Request) (w : World) : World :=
  {| templates := templates w; jobs := jobs w; console := console w;
     clock_reads := clock_reads w; fs_reads := fs_reads w;
     calendar_requests := calendar_requests w;
     slack_requests := r; hibob_requests := hibob_requests w;
     unhandledRejections := unhandledRejections w |}.

Definition set_hibob_requests (r : list HiBob.Request) (w : World) : World :=
  {| templates := templates w; jobs := jobs w; console := console w;
     clock_reads := clock_reads w; fs_reads := fs_reads w;
     calendar_requests := calendar_requests w;
     slack_requests := slack_requests w; hibob_requests := r;
     unhandledRejections := unhandledRejections w |}.

Definition set_unhandledRejections (r : list Error) (w : World) : World :=
  {| templates := templates w; jobs := jobs w; console := console w;
     clock_reads := clock_reads w; fs_reads := fs_reads w;
     calendar_requests := calendar_requests w;
     slack_requests := slack_requests w; hibob_requests := hibob_requests w;
     unhandledRejections := r |}.

(** The world at start-up: [const templates = {}], nothing scheduled. *)
Definition initial : World :=
  {| templates := ∅; jobs := []; console := []; clock_reads := 0%nat;
     fs_reads := []; calendar_requests := []; slack_requests := [];
     hibob_requests := []; unhandledRejections := [] |}.

(** ** Computations *)

Definition M (A : Type) : Type := World -> Completion A * World.

Definition ret {A} (a : A) : M A := fun w => (Normal a, w).

Definition throw {A} (e : Error) : M A := fun w => (Throw e, w).

Definition bind {A B} (m : M A) (k : A -> M B) : M B :=
  fun w =>
    match m w with
    | (Normal a, w') => k a w'
    | (Throw e, w') => (Throw e, w')
    end.

(** [try { m } catch (error) { h error }] *)
Definition try_catch {A} (m : M A) (h : Error -> M A) : M A :=
  fun w =>
    match m w with
    | (Normal a, w') => (Normal a, w')
    | (Throw e, w') => h e w'
    end.

Definition lift {A} (c : Completion A) : M A := fun w => (c, w).

Declare Scope js_scope.
Delimit Scope js_scope with js.
Notation "x <- m ;; k" := (bind m (fun x => k))
  (at level 100, m at next level, right associativity) : js_scope.
Notation "m ;;; k" := (bind m (fun _ => k))
  (at level 100, right associativity) : js_scope.
Local Open Scope js_scope.

(** [list.forEach(f)]: an exception thrown by [f] ends the iteration. *)
Fixpoint forEach {A} (l : list A) (f : A -> M unit) : M unit :=
  match l with
  | [] => ret tt
  | x :: l' => f x ;;; forEach l' f
  end.

(** ** [Date] *)

Definition maxTimeValue : Z := 8640000000000000.

(** [TimeClip]: a time value out of the range of [Date] is [NaN]. *)
Definition TimeClip (v : number) : number :=
  match v with
  | Num t => if maxTimeValue <? Z.abs t then NaN else Num t
  | Infinity _ => NaN
  | NaN => NaN
  end.

(** [ToNumber] of a value that is a number or [undefined]. *)
Definition ToNumber (v : option number) : number :=
  match v with
  | Some n => n
  | None => NaN
  end.

(** The members every plain object inherits from [Object.prototype]. *)
Definition Object_prototype_keys : list string :=
  [ "constructor"; "__defineGetter__"; "__defineSetter__"; "hasOwnProperty";
    "__lookupGetter__"; "__lookupSetter__"; "isPrototypeOf";
    "propertyIsEnumerable"; "toString"; "valueOf"; "__proto__";
    "toLocaleString" ].

(** [path.join]: the segments joined by the separator (normalisation of
    the result is not modelled); a segment that is not a string is a
    [TypeError]. *)
Fixpoint join_segments (l : list string) : string :=
  match l with
  | [] => "."
  | [s] => s
  | s :: l' => s +:+ "/" +:+ join_segments l'
  end.

Fixpoint all_strings (l : list (option string)) : option (list string) :=
  match l with
  | [] => Some []
  | Some s :: l' => option_map (cons s) (all_strings l')
  | None :: _ => None
  end.

Definition dquote : string := String (ascii_of_nat 34) EmptyString.

Definition path_join (segments : list (option string)) : Completion string :=
  match all_strings segments with
  | Some l => Normal (join_segments l)
  | None =>
      Throw (mkError "TypeError"
               ("The " +:+ dquote +:+ "path" +:+ dquote
                +:+ " argument must be of type string. Received undefined"))
  end.

(** ** The program *)

Section Program.

Context (env : Env).

(** [new Date()] reads the system clock. *)
Definition new_Date_now : M number :=
  fun w =>
    (Normal (Num (Date_now env (clock_reads w))),
     set_clock_reads (S (clock_reads w)) w).

(** [new Date(v)] for [v] a string or [undefined]. *)
Definition new_Date_of_value (v : option string) : number :=
  match v with
  | Some s => TimeClip (Date_parse env s)
  | None => NaN
  end.

(** [new Date(v)] for [v] a number. *)
Definition new_Date_of_number (v : number) : number := TimeClip v.

(** [console.error(label, error)] *)
Definition console_error (label : string) (error : Error) : M unit :=
  fun w => (Normal tt, set_console (console w ++ [(label, error)]) w).

(** [templates[key]]: an own property or an inherited member. *)
Definition templates_get (key : string) (w : World) : option Template :=
  match templates w !! key with
  | Some t => Some t
  | None =>
      if bool_decide (key ∈ Object_prototype_keys) then Some (Inherited key)
      else None
  end.

Definition fs_readFileSync (path : string) : M string :=
  fun w =>
    (readFileSync env (length (fs_reads w)) path,
     set_fs_reads (fs_reads w ++ [path]) w).

(** [function getTemplate(templateName)] *)
Definition getTemplate (templateName : option string) : M Template :=
  fun w =>
    let key := ToString templateName in
    match templates_get key w with
    | Some t => (Normal t, w)
    | None =>
        (templatePath <-
           lift (path_join [Some (dirname env); Some "config";
                            Some "templates"; templateName]) ;;
         templateContent <- fs_readFileSync templatePath ;;
         fun w' =>
           (Normal (Compiled templateContent),
            set_templates (<[key := Compiled templateContent]> (templates w')) w')) w
    end.

(** [function formatEventData(event)] *)
Definition formatEventData (event : Event) : EventData :=
  let startTime :=
    new_Date_of_value (or_else (dateTime (start event)) (date (start event))) in
  {| eventTitle := summary event;
     eventTime := toLocaleString env startTime;
     eventLocation := ToString (or_else (location event) (Some ""));
     eventDescription := ToString (or_else (description event) (Some ""));
     eventLink := ToString (or_else (htmlLink event) (Some "")) |}.

(** [template(eventData)] *)
Definition call_template (t : Template) (eventData : EventData) : M string :=
  match t with
  | Compiled content => lift (Handlebars_render env content eventData)
  | Inherited key => lift (call_inherited env key eventData)
  end.

(** [async function sendSlackMessage(message)] *)
Definition sendSlackMessage (message : string) : M unit :=
  try_catch
    (fun w =>
       let request :=
         {| Slack.channel := process_env env "SLACK_CHANNEL_ID";
            Slack.text := message;
            Slack.parse := "mrkdwn" |} in
       (slack_chat_postMessage env (length (slack_requests w)) request,
        set_slack_requests (slack_requests w ++ [request]) w))
    (fun error => console_error "Error sending Slack message:" error).

(** [async function sendHiBobShoutout(message)] *)
Definition sendHiBobShoutout (message : string) : M unit :=
  try_catch
    (fun w =>
       let request :=
         {| HiBob.url := "/shoutouts";
            HiBob.text := message;
            HiBob.type := process_env env "HIBOB_SHOUTOUT_TYPE";
            HiBob.visibility := process_env env "HIBOB_SHOUTOUT_VISIBILITY" |} in
       (hibob_post env (length (hibob_requests w)) request,
        set_hibob_requests (hibob_requests w ++ [request]) w))
    (fun error => console_error "Error sending HiBob shoutout:" error).

(** [async function sendNotification(event, notificationConfig)] *)
Definition sendNotification (event : Event) (notificationConfig : Notification)
  : M unit :=
  template <- getTemplate (template notificationConfig) ;;
  let eventData := formatEventData event in
  message <- call_template template eventData ;;
  if bool_decide (type notificationConfig = Some "slack") then
    sendSlackMessage message
  else if bool_decide (type notificationConfig = Some "hibob") then
    sendHiBobShoutout message
  else ret tt.

(** [async function getUpcomingEvents()] *)
Definition getUpcomingEvents : M (list Event) :=
  try_catch
    (now <- new_Date_now ;;
     fun w =>
       let request :=
         {| Calendar.calendarId := process_env env "GOOGLE_CALENDAR_ID";
            Calendar.timeMin := now;
            Calendar.maxResults :=
              parseInt (ToString (process_env env "APP_MAX_EVENTS"));
            Calendar.singleEvents := true;
            Calendar.orderBy := "startTime" |} in
       (calendar_events_list env (length (calendar_requests w)) request,
        set_calendar_requests (calendar_requests w ++ [request]) w))
    (fun error =>
       console_error "Error fetching calendar events:" error ;;; ret []).

(** [schedule.scheduleJob(date, callback)] of the scheduling library: every
    call makes a new anonymous one-shot job; the library is given no key.
    The callback is kept as the pair of variables it closes over. *)
Definition scheduleJob (d : number) (event : Event) (notification : Notification)
  : M unit :=
  fun w =>
    (Normal tt,
     set_jobs (jobs w ++ [{| fireDate := d; job_event := event;
                             job_notification := notification |}]) w).

(** The time value of the reminder:
    [new Date(startTime.getTime() - notification.minutes * 60000)]. *)
Definition reminderTime_of (startTime : number) (notification : Notification)
  : number :=
  new_Date_of_number
    (sub startTime (mul (ToNumber (minutes notification)) (Num 60000))).

(** The body of [NOTIFICATION_TIMES.forEach(notification => ...)]. *)
Definition scheduleReminders_notification
  (event : Event) (startTime : number) (notification : Notification) : M unit :=
  let reminderTime := reminderTime_of startTime notification in
  now <- new_Date_now ;;
  if gt reminderTime now then scheduleJob reminderTime event notification
  else ret tt.

(** [const startTime = new Date(event.start.dateTime || event.start.date)] *)
Definition startTime_of (event : Event) : number :=
  new_Date_of_value (or_else (dateTime (start event)) (date (start event))).

(** The body of [events.forEach(event => ...)]. *)
Definition scheduleReminders_event
  (NOTIFICATION_TIMES : list Notification) (event : Event) : M unit :=
  let startTime := startTime_of event in
  forEach NOTIFICATION_TIMES (scheduleReminders_notification event startTime).

(** [async function scheduleReminders()] *)
Definition scheduleReminders (NOTIFICATION_TIMES : list Notification) : M unit :=
  events <- getUpcomingEvents ;;
  forEach events (scheduleReminders_event NOTIFICATION_TIMES).

(** Calling an [async] function and dropping its promise: the caller goes
    on; a rejection has no handler. *)
Definition detached (m : M unit) : M unit :=
  fun w =>
    match m w with
    | (Normal _, w') => (Normal tt, w')
    | (Throw e, w') =>
        (Normal tt, set_unhandledRejections (unhandledRejections w' ++ [e]) w')
    end.

(** The callback of a job: [() => { sendNotification(event, notification); }]. *)
Definition job_callback (j : Job) : M unit :=
  detached (sendNotification (job_event j) (job_notification j)).

(** The scheduler fires the [k]-th pending job: the job is one-shot, it
    leaves the pending jobs and its callback runs. *)
Definition fire (k : nat) : M unit :=
  fun w =>
    match jobs w !! k with
    | Some j => job_callback j (set_jobs (delete k (jobs w)) w)
    | None => (Normal tt, w)
    end.

(** One poll cycle, as the scheduler or the initial run starts it:
    [scheduleReminders()] with its promise dropped. *)
Definition poll (NOTIFICATION_TIMES : list Notification) : M unit :=
  detached (scheduleReminders NOTIFICATION_TIMES).

End Program.

(** [const NOTIFICATION_TIMES = notificationConfig.notifications.map(...)] *)
Definition notification_time (notification : Notification)
  : Completion Notification :=
  match time notification with
  | None =>
      Throw (mkError "TypeError"
               "Cannot read properties of undefined (reading 'split')")
  | Some t =>
      match parseTimeToMinutes t with
      | Normal m =>
          Normal {| time := None; type := None; template := None;
                    minutes := Some m; originalTime := Some t |}
      | Throw e => Throw e
      end
  end.

Fixpoint NOTIFICATION_TIMES (notifications : list Notification)
  : Completion (list Notification) :=
  match notifications with
  | [] => Normal []
  | notification :: rest =>
      match notification_time notification with
      | Throw e => Throw e
      | Normal n =>
          match NOTIFICATION_TIMES rest with
          | Throw e => Throw e
          | Normal l => Normal (n :: l)
          end
      end
  end.

(** ** Vocabulary of the properties *)

(** The recognized units and their length in minutes. *)
Definition unit_factor (u : string) : option Z :=
  if (u =? "minute")%string || (u =? "minutes")%string then Some 1
  else if (u =? "hour")%string || (u =? "hours")%string then Some 60
  else if (u =? "day")%string || (u =? "days")%string then Some 1440
  else None.

(** The decimal numeral of a natural number. *)
Definition decimal (n : N) : string := NilZero.string_of_uint (N.to_uint n).

(** A string without a space. *)
Fixpoint no_space (s : string) : bool :=
  match s with
  | EmptyString => true
  | String c s' => negb (Ascii.eqb c " ") && no_space s'
  end.

(** A strictly positive number. *)
Definition is_positive (x : number) : Prop :=
  match x with
  | Num z => 0 < z
  | Infinity negative => negative = false
  | NaN => False
  end.

(** What the [switch] of the parser computes from the number [p] that
    [parseInt] read, for a unit of [k] minutes: [p * 24 * 60], [p * 60] or
    [p], each product rounded as doubles are. *)
Definition times_factor (k : Z) (p : number) : number :=
  if k =? 1440 then mul (mul p (Num 24)) (Num 60)
  else if k =? 60 then mul p (Num 60)
  else p.

(** The plan of the specification's Reminder Plan Builder: for one event
    and the instant [now], the offsets of [times], in their order, whose
    fire instant (start minus offset minutes) is strictly after [now], each
    with its fire instant. *)
Definition buildPlan (env : Env) (now : Z) (times : list Notification)
  (event : Event) : list Job :=
  flat_map
    (fun notification =>
       match startTime_of env event, minutes notification with
       | Num start, Some (Num m) =>
           let fireInstant := start - m * 60000 in
           if bool_decide (now < fireInstant)
           then [{| fireDate := Num fireInstant; job_event := event;
                    job_notification := notification |}]
           else []
       | _, _ => []
       end)
    times.

(** Every fire instant of the events and offsets is a time value that a
    [Date] can hold (none lies after the year 275760). *)
Definition representable (env : Env) (events : list Event)
  (times : list Notification) : bool :=
  forallb
    (fun event =>
       forallb
         (fun notification =>
            match startTime_of env event, minutes notification with
            | Num start, Some (Num m) => start - m * 60000 <=? maxTimeValue
            | _, _ => true
            end)
         times)
    events.

(** A job fires at its event's start minus its offset in minutes. *)
Definition fires_at_offset (env : Env) (j : Job) : Prop :=
  exists t m,
    startTime_of env (job_event j) = Num t
    /\ minutes (job_notification j) = Some (Num m)
    /\ fireDate j = Num (t - m * 60000).

#[global] Instance number_eq_dec : EqDecision number.
Proof. solve_decision. Defined.
#[global] Instance EventStart_eq_dec : EqDecision EventStart.
Proof. solve_decision. Defined.
#[global] Instance Event_eq_dec : EqDecision Event.
Proof. solve_decision. Defined.
#[global] Instance Notification_eq_dec : EqDecision Notification.
Proof. solve_decision. Defined.
#[global] Instance Job_eq_dec : EqDecision Job.
Proof. solve_decision. Defined.

(** The pending jobs of the pair (event identifier, notification). *)
Definition jobs_of (id : string) (n : Notification) (l : list Job) : list Job :=
  filter (fun j => event_id (job_event j) = id /\ job_notification j = n) l.

(** [m] only appends to the pending jobs, and every job it appends
    satisfies [P]. *)
Definition appends_jobs {A} (P : Job -> Prop) (m : M A) : Prop :=
  forall w, exists added, jobs (m w).2 = (jobs w ++ added)%list /\ Forall P added.

(** The requests that the two senders make. *)
Definition slack_request (env : Env) (message : string) : Slack.Request :=
  {| Slack.channel := process_env env "SLACK_CHANNEL_ID";
     Slack.text := message;
     Slack.parse := "mrkdwn" |}.

Definition hibob_request (env : Env) (message : string) : HiBob.Request :=
  {| HiBob.url := "/shoutouts";
     HiBob.text := message;
     HiBob.type := process_env env "HIBOB_SHOUTOUT_TYPE";
     HiBob.visibility := process_env env "HIBOB_SHOUTOUT_VISIBILITY" |}.

(** [w'] has the deliveries, the log, the pending jobs and the unhandled
    rejections of [w]. *)
Definition same_outputs (w w' : World) : Prop :=
  console w' = console w
  /\ slack_requests w' = slack_requests w
  /\ hibob_requests w' = hibob_requests w
  /\ jobs w' = jobs w
  /\ unhandledRejections w' = unhandledRejections w.

(** ** A sample installation *)

Module Sample.

Definition meeting : Event :=
  {| event_id := "evt1"; summary := Some "Standup";
     start := {| dateTime := Some "2030-01-01T10:00:00Z"; date := None |};
     location := None; description := None; htmlLink := None |}.

Definition rule (t ty tpl : string) : Notification :=
  {| time := Some t; type := Some ty; template := Some tpl;
     minutes := None; originalTime := None |}.

(** [config/notifications.yml] *)
Definition notifications : list Notification :=
  [ rule "1 day" "hibob" "hibob.hbs"; rule "10 minutes" "slack" "slack.hbs" ].

Definition ENOENT : Error := mkError "Error" "ENOENT: no such file or directory".
Definition unreachable : Error := mkError "Error" "connect ECONNREFUSED".

(** The clock stands at 2029-12-30T04:40:00Z; the calendar holds one
    event; the template of the chat channel exists; the first request to
    the chat service fails. *)
Definition env : Env :=
  {| process_env := fun _ => None;
     dirname := "/app";
     Date_now := fun _ => 1893300000000;
     Date_parse := fun s =>
       if (s =? "2030-01-01T10:00:00Z")%string then Num 1893492000000 else NaN;
     toLocaleString := fun _ => "1/1/2030, 10:00:00 AM";
     readFileSync := fun _ path =>
       if (path =? "/app/config/templates/slack.hbs")%string
       then Normal "Reminder" else Throw ENOENT;
     Handlebars_render := fun content _ => Normal content;
     call_inherited := fun _ _ => Throw (mkError "TypeError" "not a function");
     calendar_events_list := fun _ _ => Normal [meeting];
     slack_chat_postMessage := fun k _ =>
       match k with O => Throw unreachable | _ => Normal tt end;
     hibob_post := fun _ _ => Normal tt |}.

(** The same installation when the calendar cannot be reached. *)
Definition offline : Env :=
  {| process_env := process_env env; dirname := dirname env;
     Date_now := Date_now env; Date_parse := Date_parse env;
     toLocaleString := toLocaleString env; readFileSync := readFileSync env;
     Handlebars_render := Handlebars_render env;
     call_inherited := call_inherited env;
     calendar_events_list := fun _ _ => Throw unreachable;
     slack_chat_postMessage := slack_chat_postMessage env;
     hibob_post := hibob_post env |}.

(** The same installation once the template of the shout-out channel
    has been put in place. *)
Definition restored : Env :=
  {| process_env := process_env env; dirname := dirname env;
     Date_now := Date_now env; Date_parse := Date_parse env;
     toLocaleString := toLocaleString env;
     readFileSync := fun _ _ => Normal "Shoutout";
     Handlebars_render := Handlebars_render env;
     call_inherited := call_inherited env;
     calendar_events_list := calendar_events_list env;
     slack_chat_postMessage := slack_chat_postMessage env;
     hibob_post := hibob_post env |}.

(** [NOTIFICATION_TIMES] of the sample configuration. *)
Definition times : list Notification :=
  match NOTIFICATION_TIMES notifications with
  | Normal l => l
  | Throw _ => []
  end.

Definition ten_minutes : Notification :=
  {| time := None; type := None; template := None;
     minutes := Some (Num 10); originalTime := Some "10 minutes" |}.

End Sample.

(** ** Vocabulary of the further properties *)

(** A character at which [parseInt] stops reading a decimal numeral. *)
Definition stops_decimal (c : ascii) : bool :=
  match digit_value c with
  | Some v => 10 <=? v
  | None => true
  end.

(** [m] always completes normally. *)
Definition returns {A} (m : M A) : Prop :=
  forall w, exists a, (m w).1 = Normal a.

(** [m] leaves the component [f] of the world as it is. *)
Definition preserves {A X} (f : World -> X) (m : M A) : Prop :=
  forall w, f (m w).2 = f w.

(** The poll cycle run [n] times in a row, as the recurring job and the
    initial run start it. *)
Fixpoint polls (env : Env) (times : list Notification) (n : nat) : M unit :=
  match n with
  | O => ret tt
  | S n' => bind (poll env times) (fun _ => polls env times n')
  end.

(** A job whose date is a time value of [Date] that lies after some
    reading of the clock. *)
Definition fires_in_future (env : Env) (j : Job) : Prop :=
  exists t k,
    fireDate j = Num t /\ Z.abs t <= maxTimeValue /\ Date_now env k < t.

(** A time value that a [Date] can hold, or [NaN]. *)
Definition is_time_value (v : number) : Prop :=
  match v with
  | Num t => Z.abs t <= maxTimeValue
  | Infinity _ => False
  | NaN => True
  end.

(** * Properties *)

(** ** Rounding to doubles *)

Section Rounding.

Lemma round_nearest_even_bounds e a :
  0 < e -> 0 <= a ->
  a / 2 ^ e * 2 ^ e <= round_nearest_even e a <= (a / 2 ^ e + 1) * 2 ^ e.
Proof.
  intros He Ha. unfold round_nearest_even.
  assert (0 < 2 ^ e) by (apply Z.pow_pos_nonneg; lia).
  destruct (_ <? _); [nia|]. destruct (_ <? _); [nia|].
  destruct (Z.even _); nia.
Qed.

Lemma round_nearest_even_exact e a :
  0 < e -> 0 <= a -> a mod 2 ^ e = 0 -> round_nearest_even e a = a.
Proof.
  intros He Ha Hr. unfold round_nearest_even. rewrite Hr.
  assert (0 < 2 ^ (e - 1)) by (apply Z.pow_pos_nonneg; lia).
  destruct (Z.ltb_spec 0 (2 ^ (e - 1))); [|lia].
  assert (0 < 2 ^ e) by (apply Z.pow_pos_nonneg; lia).
  pose proof (Z.div_mod a (2 ^ e)). lia.
Qed.

Lemma log2_small a : 0 <= a -> a < 2 ^ 53 -> Z.log2 a <= 52.
Proof.
  intros Ha Hlt. destruct (Z.eq_dec a 0) as [->|]; [cbn; lia|].
  assert (Z.log2 a < 53); [|lia]. apply Z.log2_lt_pow2; lia.
Qed.

Lemma round53_small z : Z.abs z < 2 ^ 53 -> round53 z = z.
Proof.
  intros H. unfold round53.
  pose proof (log2_small (Z.abs z) (Z.abs_nonneg z) H).
  destruct (Z.leb_spec (Z.log2 (Z.abs z) - 52) 0); [reflexivity|lia].
Qed.

Lemma round53_abs z :
  2 ^ 53 <= Z.abs z ->
  round53 z = Z.sgn z * round_nearest_even (Z.log2 (Z.abs z) - 52) (Z.abs z)
  /\ 0 < Z.log2 (Z.abs z) - 52.
Proof.
  intros H. unfold round53.
  assert (53 <= Z.log2 (Z.abs z)).
  { apply Z.log2_le_pow2; [|exact H].
    assert (0 < 2 ^ 53) by (apply Z.pow_pos_nonneg; lia). lia. }
  destruct (Z.leb_spec (Z.log2 (Z.abs z) - 52) 0); [lia|]. split; [reflexivity|lia].
Qed.

Lemma round53_lower z :
  2 ^ 53 <= Z.abs z -> 2 ^ Z.log2 (Z.abs z) <= Z.abs (round53 z).
Proof.
  intros H. destruct (round53_abs z H) as [-> He].
  set (a := Z.abs z) in *. set (e := Z.log2 a - 52) in *.
  assert (0 < 2 ^ 53) by (apply Z.pow_pos_nonneg; lia).
  assert (0 < a) as Ha by lia.
  pose proof (round_nearest_even_bounds e a He ltac:(lia)) as [Hlo _].
  pose proof (Z.log2_spec a Ha) as [Hl _].
  assert (0 < 2 ^ e) as HP by (apply Z.pow_pos_nonneg; lia).
  assert (2 ^ Z.log2 a = 2 ^ 52 * 2 ^ e) as Hsplit.
  { rewrite <- Z.pow_add_r by lia. f_equal. unfold e. lia. }
  assert (2 ^ 52 <= a / 2 ^ e).
  { apply Z.div_le_lower_bound; lia. }
  rewrite Z.abs_mul. 
  assert (Z.abs (Z.sgn z) = 1) as ->.
  { unfold a in Ha. destruct z; simpl in *; lia. }
  rewrite Hsplit. 
  assert (0 < 2 ^ 52) by (apply Z.pow_pos_nonneg; lia).
  rewrite Z.mul_1_l. 
  assert (0 <= round_nearest_even e a) by nia.
  rewrite Z.abs_eq by assumption. nia.
Qed.

Lemma round53_sgn z : Z.sgn (round53 z) = Z.sgn z.
Proof.
  destruct (Z.lt_ge_cases (Z.abs z) (2 ^ 53)) as [H|H].
  - by rewrite round53_small.
  - pose proof (round53_lower z H) as Hl.
    destruct (round53_abs z H) as [E He]. rewrite E in *.
    assert (0 < 2 ^ Z.log2 (Z.abs z)) by (apply Z.pow_pos_nonneg; [lia|apply Z.log2_nonneg]).
    assert (0 < 2 ^ 53) by (apply Z.pow_pos_nonneg; lia).
    set (R := round_nearest_even _ _) in *.
    assert (0 <= R).
    { pose proof (round_nearest_even_bounds _ (Z.abs z) He (Z.abs_nonneg z)) as [Hlo _].
      assert (0 < 2 ^ (Z.log2 (Z.abs z) - 52)) by (apply Z.pow_pos_nonneg; lia).
      assert (0 <= Z.abs z / 2 ^ (Z.log2 (Z.abs z) - 52)) by (apply Z.div_pos; lia).
      fold R in Hlo. nia. }
    destruct z; simpl in *; try lia; destruct R; simpl in *; lia.
Qed.

Lemma round53_exact z :
  (2 ^ (Z.log2 (Z.abs z) - 52) | z) -> round53 z = z.
Proof.
  intros Hdiv.
  destruct (Z.lt_ge_cases (Z.abs z) (2 ^ 53)) as [H|H]; [by apply round53_small|].
  destruct (round53_abs z H) as [-> He].
  rewrite round_nearest_even_exact; [by destruct z|lia|apply Z.abs_nonneg|].
  apply Z.mod_divide; [|by apply Z.divide_abs_r].
  assert (0 < 2 ^ (Z.log2 (Z.abs z) - 52)) by (apply Z.pow_pos_nonneg; lia). lia.
Qed.

End Rounding.

Section Exact.

Lemma pow2_53 : 2 ^ 53 = 9007199254740992. Proof. reflexivity. Qed.
Lemma pow2_58 : 2 ^ 58 = 288230376151711744. Proof. reflexivity. Qed.

Lemma pow2_1024_large : 2 ^ 58 < 2 ^ 1024.
Proof. apply Z.pow_lt_mono_r; lia. Qed.

Lemma of_integer_exact z : Z.abs z <= 2 ^ 53 -> of_integer z = Num z.
Proof.
  intros H. unfold of_integer.
  assert (round53 z = z) as ->.
  { destruct (Z.eq_dec (Z.abs z) (2 ^ 53)) as [E|E].
    - apply round53_exact. rewrite E.
      change (Z.log2 (2 ^ 53) - 52) with 1.
      rewrite pow2_53 in E. exists (z / 2).
      destruct z as [|p|p]; simpl in E; try lia; injection E as ->; reflexivity.
    - apply round53_small. lia. }
  pose proof pow2_1024_large. rewrite pow2_58 in *. rewrite pow2_53 in *.
  destruct (Z.leb_spec (2 ^ 1024) (Z.abs z)); [lia|reflexivity].
Qed.

Lemma of_integer_cases z :
  2 ^ 53 <= Z.abs z ->
  match of_integer z with
  | Num r => 2 ^ Z.log2 (Z.abs z) <= Z.abs r
  | Infinity s => s = (z <? 0)
  | NaN => False
  end.
Proof.
  intros H. unfold of_integer. pose proof (round53_lower z H).
  by destruct (_ <=? _).
Qed.

Lemma of_integer_out_of_range z :
  2 ^ 53 <= Z.abs z -> TimeClip (of_integer z) = NaN.
Proof.
  intros H. pose proof (of_integer_cases z H) as Hc.
  destruct (of_integer z) as [r| |]; try done. simpl.
  assert (2 ^ 53 <= 2 ^ Z.log2 (Z.abs z)).
  { apply Z.pow_le_mono_r; [lia|]. apply Z.log2_le_pow2; [|exact H].
    rewrite pow2_53 in H. lia. }
  rewrite pow2_53 in *. unfold maxTimeValue.
  destruct (Z.ltb_spec 8640000000000000 (Z.abs r)); [done|lia].
Qed.

Lemma of_integer_multiple_of_32 z :
  Z.abs z < 2 ^ 58 -> (32 | z) -> of_integer z = Num z.
Proof.
  intros H Hdiv. unfold of_integer.
  assert (round53 z = z) as ->.
  { destruct (Z.lt_ge_cases (Z.abs z) (2 ^ 53)) as [Hs|Hl];
      [by apply round53_small|].
    destruct (round53_abs z Hl) as [_ He].
    assert (Z.log2 (Z.abs z) < 58).
    { apply Z.log2_lt_pow2; [rewrite pow2_53 in Hl; lia|exact H]. }
    apply round53_exact.
    apply Z.divide_trans with 32; [|exact Hdiv].
    exists (2 ^ (5 - (Z.log2 (Z.abs z) - 52))).
    rewrite <- Z.pow_add_r by lia.
    replace (5 - (Z.log2 (Z.abs z) - 52) + (Z.log2 (Z.abs z) - 52)) with 5 by lia.
    reflexivity. }
  pose proof pow2_1024_large.
  destruct (Z.leb_spec (2 ^ 1024) (Z.abs z)); [lia|reflexivity].
Qed.

Lemma of_integer_huge z :
  2 ^ 58 <= Z.abs z ->
  match of_integer z with
  | Num r => 2 ^ 58 <= Z.abs r
  | Infinity _ => True
  | NaN => False
  end.
Proof.
  intros H. rewrite pow2_58 in H.
  assert (2 ^ 53 <= Z.abs z) as H53 by (rewrite pow2_53; lia).
  pose proof (of_integer_cases z H53) as Hc.
  destruct (of_integer z) as [r| |]; try done.
  assert (2 ^ 58 <= 2 ^ Z.log2 (Z.abs z)); [|lia].
  apply Z.pow_le_mono_r; [lia|]. apply Z.log2_le_pow2; [lia|].
  by rewrite pow2_58.
Qed.

(** The reminder time computed in doubles is the one computed in exact
    integers, once clipped to the range of [Date]. *)
Lemma reminder_exact t m :
  Z.abs t <= maxTimeValue ->
  TimeClip (sub (Num t) (mul (Num m) (Num 60000)))
  = TimeClip (Num (t - m * 60000)).
Proof.
  intros Ht. unfold maxTimeValue in *. simpl mul.
  destruct (Z.lt_ge_cases (Z.abs (m * 60000)) (2 ^ 58)) as [Hs|Hl].
  - rewrite of_integer_multiple_of_32; [|exact Hs|exists (m * 1875); lia].
    simpl sub.
    destruct (Z.lt_ge_cases (Z.abs (t - m * 60000)) (2 ^ 53)) as [Hs'|Hl'].
    + rewrite of_integer_exact by lia. reflexivity.
    + rewrite of_integer_out_of_range by exact Hl'. simpl.
      rewrite pow2_53 in Hl'. unfold maxTimeValue.
      destruct (Z.ltb_spec 8640000000000000 (Z.abs (t - m * 60000))); [done|lia].
  - pose proof (of_integer_huge _ Hl) as Hc. rewrite pow2_58 in *.
    assert (TimeClip (Num (t - m * 60000)) = NaN) as ->.
    { simpl. unfold maxTimeValue.
      destruct (Z.ltb_spec 8640000000000000 (Z.abs (t - m * 60000))); [done|lia]. }
    destruct (of_integer (m * 60000)) as [r|s|]; try done.
    simpl sub. apply of_integer_out_of_range. rewrite pow2_53. lia.
Qed.

End Exact.

Example round_above_two53 : of_integer 9007199254740993 = Num 9007199254740992.
Proof. reflexivity. Qed.
Example round_tie_to_even : of_integer 9007199254740995 = Num 9007199254740996.
Proof. reflexivity. Qed.
Example round_largest_double :
  of_integer (2 ^ 1024 - 2 ^ 971) = Num (2 ^ 1024 - 2 ^ 971).
Proof. vm_compute. reflexivity. Qed.
Example round_to_infinity : of_integer (2 ^ 1024 - 2 ^ 970) = Infinity false.
Proof. vm_compute. reflexivity. Qed.

(** ** The offset parser *)

Example parse_1_day : parseTimeToMinutes "1 day" = Normal (Num 1440).
Proof. reflexivity. Qed.
Example parse_4_hours : parseTimeToMinutes "4 hours" = Normal (Num 240).
Proof. reflexivity. Qed.
Example parse_10_minutes : parseTimeToMinutes "10 minutes" = Normal (Num 10).
Proof. reflexivity. Qed.
Example parse_weeks :
  parseTimeToMinutes "2 weeks" = Throw (mkError "Error" "Unsupported time unit: weeks").
Proof. reflexivity. Qed.
Example parse_no_unit :
  parseTimeToMinutes "90" = Throw (mkError "Error" "Unsupported time unit: undefined").
Proof. reflexivity. Qed.
Example parse_hex : parseTimeToMinutes "0x10 minutes" = Normal (Num 16).
Proof. reflexivity. Qed.
Example parse_nan : parseTimeToMinutes "some hours" = Normal NaN.
Proof. reflexivity. Qed.

Section Split.

Lemma split_no_space s : no_space s = true -> split " " s = [s].
Proof.
  induction s as [|c s IH]; simpl; [done|].
  intros [Hc Hs]%andb_true_iff.
  apply negb_true_iff in Hc. rewrite Hc, (IH Hs). done.
Qed.

Lemma split_append a b :
  no_space a = true -> split " " (a +:+ String " " b) = a :: split " " b.
Proof.
  induction a as [|c a IH]; simpl; [done|].
  intros [Hc Ha]%andb_true_iff.
  apply negb_true_iff in Hc. rewrite Hc, (IH Ha). done.
Qed.

Lemma split_amount_unit a u :
  no_space a = true -> no_space u = true ->
  split " " (a +:+ " " +:+ u) = [a; u].
Proof.
  intros Ha Hu. change (" " +:+ u) with (String " " u).
  rewrite (split_append _ _ Ha), (split_no_space _ Hu). done.
Qed.

End Split.

Section Numerals.

Lemma digits_prefix_acc d acc :
  digits_prefix 10 (NilEmpty.string_of_uint d) (Z.pos acc) true
  = Some (Z.pos (Pos.of_uint_acc d acc)).
Proof.
  revert acc.
  induction d; intros acc; simpl.
  all: try done.
  all: rewrite <- IHd; f_equal.
  all: match goal with
       | |- context [Z.of_nat ?n] =>
           let v := eval vm_compute in (Z.of_nat n) in
           change (Z.of_nat n) with v
       end; lia.
Qed.

Lemma digits_prefix_uint d :
  digits_prefix 10 (NilEmpty.string_of_uint d) 0 true
  = Some (Z.of_N (N.of_uint d)).
Proof.
  unfold N.of_uint.
  induction d; simpl; try done; apply digits_prefix_acc.
Qed.

Lemma no_space_uint d : no_space (NilEmpty.string_of_uint d) = true.
Proof. induction d; simpl; done. Qed.

Lemma digits_prefix_start d :
  d <> Decimal.Nil ->
  digits_prefix 10 (NilEmpty.string_of_uint d) 0 false
  = Some (Z.of_N (N.of_uint d)).
Proof.
  intros Hd. rewrite <- digits_prefix_uint.
  destruct d; done.
Qed.

Lemma parseInt_prefix_free s :
  TrimStart s = s ->
  match s with
  | String "-" _ | String "+" _ => False
  | String "0" (String "x" _) | String "0" (String "X" _) => False
  | _ => True
  end ->
  parseInt s = match digits_prefix 10 s 0 false with
               | Some mathInt => of_integer mathInt
               | None => NaN
               end.
Proof.
  intros Ht Hs. unfold parseInt. rewrite Ht.
  destruct s as [|c s]; [done|].
  destruct c as [[] [] [] [] [] [] [] []]; try done.
  all: try (destruct (digits_prefix 10 _ 0 false); [f_equal; lia|done]).
  destruct s as [|c s].
  - done.
  - destruct c as [[] [] [] [] [] [] [] []]; try done.
    all: destruct (digits_prefix 10 _ 0 false); [f_equal; lia|done].
Qed.

Lemma parseInt_uint d :
  d <> Decimal.Nil ->
  parseInt (NilEmpty.string_of_uint d) = of_integer (Z.of_N (N.of_uint d)).
Proof.
  intros Hd. rewrite parseInt_prefix_free.
  - by rewrite digits_prefix_start.
  - destruct d; done.
  - destruct d as [|d|d|d|d|d|d|d|d|d|d]; try done. destruct d; done.
Qed.

Lemma parseInt_decimal n : parseInt (decimal n) = of_integer (Z.of_N n).
Proof.
  unfold decimal, NilZero.string_of_uint.
  assert (H := DecimalN.Unsigned.of_to n).
  destruct (N.to_uint n) eqn:E;
    [ by subst n
    | rewrite <- E, parseInt_uint, DecimalN.Unsigned.of_to; [done|by rewrite E] .. ].
Qed.

Lemma no_space_decimal n : no_space (decimal n) = true.
Proof.
  unfold decimal, NilZero.string_of_uint.
  destruct (N.to_uint n); try done; apply no_space_uint.
Qed.

End Numerals.

Section Parser.

Lemma unit_factor_cases u k :
  unit_factor u = Some k ->
  (u = "minute" \/ u = "minutes") /\ k = 1
  \/ (u = "hour" \/ u = "hours") /\ k = 60
  \/ (u = "day" \/ u = "days") /\ k = 1440.
Proof.
  unfold unit_factor.
  destruct (String.eqb_spec u "minute"); [intros [= <-]; auto|].
  destruct (String.eqb_spec u "minutes"); [intros [= <-]; auto|].
  destruct (String.eqb_spec u "hour"); [intros [= <-]; auto|].
  destruct (String.eqb_spec u "hours"); [intros [= <-]; auto|].
  destruct (String.eqb_spec u "day"); [intros [= <-]; auto 6|].
  destruct (String.eqb_spec u "days"); [intros [= <-]; auto 6|].
  done.
Qed.

Lemma unit_factor_no_space u k : unit_factor u = Some k -> no_space u = true.
Proof.
  intros H. apply unit_factor_cases in H.
  destruct H as [[[-> | ->] _] | [[[-> | ->] _] | [[-> | ->] _]]]; done.
Qed.

(** What the [switch] returns on a recognized unit, whatever the amount. *)
Lemma parse_recognized s u k :
  nth_error (split " " s) 1 = Some u ->
  unit_factor u = Some k ->
  parseTimeToMinutes s = Normal (times_factor k (parseInt (hd "" (split " " s)))).
Proof.
  intros Hu Hk. unfold parseTimeToMinutes. rewrite Hu.
  apply unit_factor_cases in Hk.
  by destruct Hk as [[[-> | ->] ->] | [[[-> | ->] ->] | [[-> | ->] ->]]].
Qed.

(** Below 2^53 the products of the [switch] are exact. *)
Lemma times_factor_exact x u k :
  unit_factor u = Some k -> Z.abs x * k <= 2 ^ 53 ->
  times_factor k (of_integer x) = Num (x * k).
Proof.
  intros Hk Hb. apply unit_factor_cases in Hk.
  destruct Hk as [[_ ->] | [[_ ->] | [_ ->]]]; unfold times_factor; simpl.
  - rewrite of_integer_exact by lia. f_equal; lia.
  - rewrite of_integer_exact by lia. simpl.
    rewrite of_integer_exact by lia. done.
  - rewrite of_integer_exact by lia. simpl.
    rewrite of_integer_exact by lia. simpl.
    rewrite of_integer_exact by lia. f_equal; lia.
Qed.

Lemma is_positive_of_integer z : is_positive (of_integer z) <-> 0 < z.
Proof.
  unfold of_integer. pose proof (round53_sgn z) as Hs.
  destruct (Z.leb_spec (2 ^ 1024) (Z.abs (round53 z))) as [Hbig|_]; simpl.
  - assert (0 < 2 ^ 1024) by (apply Z.pow_pos_nonneg; lia).
    assert (z <> 0) as Hz.
    { intros ->. change (round53 0) with 0 in Hbig. simpl in Hbig. lia. }
    destruct (Z.ltb_spec z 0); split; intros; try done; lia.
  - destruct z, (round53 _); simpl in *; lia.
Qed.

Lemma is_positive_mul p c :
  0 < c -> is_positive (mul p (Num c)) <-> is_positive p.
Proof.
  intros Hc. destruct p as [x|s|]; simpl; [| |done].
  - rewrite is_positive_of_integer. nia.
  - destruct (Z.eqb_spec c 0); [lia|].
    destruct (Z.ltb_spec c 0); [lia|]. simpl. by rewrite xorb_false_r.
Qed.

Lemma is_positive_times_factor p u k :
  unit_factor u = Some k ->
  is_positive (times_factor k p) <-> is_positive p.
Proof.
  intros Hk. apply unit_factor_cases in Hk.
  destruct Hk as [[_ ->] | [[_ ->] | [_ ->]]]; unfold times_factor; simpl.
  - done.
  - by apply is_positive_mul.
  - by rewrite !is_positive_mul.
Qed.

(** What the [switch] does in its [default] case. *)
Lemma parse_unrecognized s :
  (forall u, nth_error (split " " s) 1 = Some u -> unit_factor u = None) ->
  parseTimeToMinutes s
  = Throw (mkError "Error"
             ("Unsupported time unit: " +:+ ToString (nth_error (split " " s) 1))).
Proof.
  intros H. unfold parseTimeToMinutes.
  destruct (nth_error (split " " s) 1) as [u|]; [|done].
  specialize (H u eq_refl). unfold unit_factor in H.
  destruct (u =? "minute")%string, (u =? "minutes")%string,
    (u =? "hour")%string, (u =? "hours")%string,
    (u =? "day")%string, (u =? "days")%string; done.
Qed.

End Parser.

(** C4, as the specification states it, fails past 2^53, where a double
    no longer holds every integer: the amount 9007199254740993 is read as
    9007199254740992. *)
Lemma parse_beyond_two53 :
  parseTimeToMinutes "9007199254740993 minutes" = Normal (Num 9007199254740992)
  /\ ~ (forall n u k,
          unit_factor u = Some k ->
          parseTimeToMinutes (decimal n +:+ " " +:+ u)
          = Normal (Num (Z.of_N n * k))).
Proof.
  split; [vm_compute; reflexivity|].
  intros H. specialize (H 9007199254740993%N "minutes" 1 eq_refl).
  vm_compute in H. discriminate H.
Qed.

(** C4, amended: on ["<amount> <unit>"] with a unit among minute, minutes,
    hour, hours, day, days the parser returns the amount times 1, 60 or
    24 and 60, computed in doubles; the result is exactly the amount
    times 1, 60 or 1440 as long as that product is at most 2^53.  On any
    other unit it throws an error whose message names the unit (the
    second word of the string, [undefined] when there is none). *)
Theorem parseTimeToMinutes_units (n : N) (amount u s : string) :
  (forall k, unit_factor u = Some k ->
     parseTimeToMinutes (decimal n +:+ " " +:+ u)
     = Normal (times_factor k (of_integer (Z.of_N n)))
     /\ (Z.of_N n * k <= 2 ^ 53 ->
         parseTimeToMinutes (decimal n +:+ " " +:+ u)
         = Normal (Num (Z.of_N n * k))))
  /\ (no_space amount = true -> no_space u = true -> unit_factor u = None ->
      parseTimeToMinutes (amount +:+ " " +:+ u)
      = Throw (mkError "Error" ("Unsupported time unit: " +:+ u)))
  /\ ((forall v, nth_error (split " " s) 1 = Some v -> unit_factor v = None) ->
      parseTimeToMinutes s
      = Throw (mkError "Error"
                 ("Unsupported time unit: "
                  +:+ ToString (nth_error (split " " s) 1)))).
Proof.
  split; [|split].
  - intros k Hk.
    pose proof (unit_factor_no_space _ _ Hk) as Hu.
    pose proof (split_amount_unit _ _ (no_space_decimal n) Hu) as Hs.
    assert (parseTimeToMinutes (decimal n +:+ " " +:+ u)
            = Normal (times_factor k (of_integer (Z.of_N n)))) as E.
    { rewrite (parse_recognized _ u k), Hs; simpl.
      - by rewrite parseInt_decimal.
      - by rewrite Hs.
      - done. }
    split; [exact E|]. intros Hb. rewrite E.
    rewrite (times_factor_exact _ u k Hk); [done|].
    rewrite Z.abs_eq by lia. exact Hb.
  - intros Ha Hu Hk.
    pose proof (split_amount_unit _ _ Ha Hu) as Hs.
    rewrite parse_unrecognized; rewrite Hs; simpl; [done|].
    by intros v [= <-].
  - apply parse_unrecognized.
Qed.

Lemma parseTimeToMinutes_units_witness :
  parseTimeToMinutes "4 hours" = Normal (Num 240)
  /\ parseTimeToMinutes "2 weeks"
     = Throw (mkError "Error" "Unsupported time unit: weeks")
  /\ parseTimeToMinutes "90"
     = Throw (mkError "Error" "Unsupported time unit: undefined").
Proof.
  split; [|split].
  - apply (proj1 (parseTimeToMinutes_units 4 "2" "hours" "90") 60 eq_refl).
    vm_compute. discriminate.
  - exact (proj1 (proj2 (parseTimeToMinutes_units 4 "2" "weeks" "90"))
             eq_refl eq_refl eq_refl).
  - apply (proj2 (proj2 (parseTimeToMinutes_units 4 "2" "weeks" "90"))).
    intros v H. vm_compute in H. discriminate H.
Defined.

(** C5, as the specification states it, fails: the parser accepts
    ["0 minutes"] and returns 0. *)
Lemma parse_zero_minutes :
  parseTimeToMinutes "0 minutes" = Normal (Num 0)
  /\ ~ (forall s m, parseTimeToMinutes s = Normal m -> is_positive m).
Proof.
  split; [reflexivity|].
  intros H. specialize (H "0 minutes" (Num 0) eq_refl). simpl in H. lia.
Qed.

(** C5, amended: when the parser succeeds, the unit is a recognized one
    and the minute count is what [parseInt] read from the amount times the
    unit's factor (times 24 and 60, times 60, or as it is), computed in
    doubles; the count is strictly positive exactly when [parseInt] read a
    strictly positive number, which it does from the decimal numeral of
    every positive integer. *)
Theorem parse_positive (s : string) (m : number) (n : N) (u : string) :
  (parseTimeToMinutes s = Normal m ->
   exists v k,
     nth_error (split " " s) 1 = Some v
     /\ unit_factor v = Some k
     /\ m = times_factor k (parseInt (hd "" (split " " s)))
     /\ (is_positive m <-> is_positive (parseInt (hd "" (split " " s)))))
  /\ ((0 < n)%N -> is_Some (unit_factor u) ->
      exists m',
        parseTimeToMinutes (decimal n +:+ " " +:+ u) = Normal m'
        /\ is_positive m').
Proof.
  split.
  - intros Hm.
    destruct (nth_error (split " " s) 1) as [v|] eqn:Hv.
    + destruct (unit_factor v) as [k|] eqn:Hk.
      * rewrite (parse_recognized _ _ _ Hv Hk) in Hm.
        injection Hm as <-. exists v, k. repeat split; try done.
        -- by apply (is_positive_times_factor _ v k).
        -- by apply (is_positive_times_factor _ v k).
      * rewrite parse_unrecognized in Hm; [done|].
        intros v' Hv'. congruence.
    + rewrite parse_unrecognized in Hm; [done|].
      intros v' Hv'. congruence.
  - intros Hn [k Hk].
    pose proof (unit_factor_no_space _ _ Hk) as Hu.
    pose proof (split_amount_unit _ _ (no_space_decimal n) Hu) as Hs.
    eexists. split.
    + rewrite (parse_recognized _ u k), Hs; simpl; [|by rewrite Hs|done].
      by rewrite parseInt_decimal.
    + apply (is_positive_times_factor _ u k Hk), is_positive_of_integer. lia.
Qed.

Lemma parse_positive_witness :
  (exists v k,
     nth_error (split " " "1 day") 1 = Some v
     /\ unit_factor v = Some k
     /\ Num 1440 = times_factor k (parseInt (hd "" (split " " "1 day")))
     /\ (is_positive (Num 1440)
         <-> is_positive (parseInt (hd "" (split " " "1 day")))))
  /\ exists m', parseTimeToMinutes "10 minutes" = Normal m' /\ is_positive m'.
Proof.
  split.
  - exact (proj1 (parse_positive "1 day" (Num 1440) 10 "minutes") eq_refl).
  - apply (proj2 (parse_positive "1 day" (Num 1440) 10 "minutes")).
    + reflexivity.
    + exists 1. reflexivity.
Defined.

(** ** Scheduling *)

Section Scheduling.

Context (env : Env).

(** The inner callback reads the clock once and schedules at most one job. *)
Lemma notification_step event startTime n w :
  scheduleReminders_notification env event startTime n w
  = let w1 := set_clock_reads (S (clock_reads w)) w in
    (Normal tt,
     if gt (reminderTime_of startTime n) (Num (Date_now env (clock_reads w)))
     then set_jobs (jobs w ++ [{| fireDate := reminderTime_of startTime n;
                                  job_event := event;
                                  job_notification := n |}]) w1
     else w1).
Proof.
  unfold scheduleReminders_notification, bind, new_Date_now. simpl.
  by destruct (gt _ _).
Qed.

(** A reminder time that compares greater than a clock reading is the
    start minus the offset. *)
Lemma startTime_of_range event : is_time_value (startTime_of env event).
Proof.
  unfold startTime_of, new_Date_of_value.
  destruct (or_else _ _) as [s|]; [|done].
  unfold TimeClip. destruct (Date_parse env s) as [t|b|]; try done.
  destruct (Z.ltb_spec maxTimeValue (Z.abs t)); simpl; [done|lia].
Qed.

(** For a start in the range of [Date] the subtraction in doubles gives,
    once clipped, the exact difference. *)
Lemma reminderTime_of_Num t m n :
  Z.abs t <= maxTimeValue -> minutes n = Some (Num m) ->
  reminderTime_of (Num t) n = TimeClip (Num (t - m * 60000)).
Proof.
  intros Ht Hm. unfold reminderTime_of, new_Date_of_number. rewrite Hm.
  simpl ToNumber. by apply reminder_exact.
Qed.

(** Without a start instant or without an integer offset the reminder
    time is an invalid date. *)
Lemma reminderTime_of_invalid startTime n :
  is_time_value startTime ->
  (forall t m, startTime = Num t -> minutes n = Some (Num m) -> False) ->
  reminderTime_of startTime n = NaN.
Proof.
  intros Hv Hno. unfold reminderTime_of, new_Date_of_number.
  destruct startTime as [t|b|]; [|done|done].
  destruct (minutes n) as [[m|b|]|]; try done.
  by destruct (Hno t m).
Qed.

Lemma gt_reminderTime startTime n now :
  is_time_value startTime ->
  gt (reminderTime_of startTime n) (Num now) = true ->
  exists t m, startTime = Num t /\ minutes n = Some (Num m)
              /\ reminderTime_of startTime n = Num (t - m * 60000)
              /\ now < t - m * 60000.
Proof.
  intros Hv G.
  destruct startTime as [t|b|] eqn:Es; [|done|].
  - destruct (minutes n) as [[m|b|]|] eqn:Hm.
    + rewrite (reminderTime_of_Num t m n Hv Hm) in *. simpl in G.
      exists t, m. simpl.
      destruct (maxTimeValue <? Z.abs (t - m * 60000)); simpl in *; [done|].
      apply Z.ltb_lt in G. done.
    + rewrite reminderTime_of_invalid in G; [done|done|congruence].
    + rewrite reminderTime_of_invalid in G; [done|done|congruence].
    + rewrite reminderTime_of_invalid in G; [done|done|congruence].
  - rewrite reminderTime_of_invalid in G; [done|done|congruence].
Qed.

Lemma reminderTime_future t m n now :
  Z.abs t <= maxTimeValue ->
  minutes n = Some (Num m) ->
  - maxTimeValue <= now ->
  t - m * 60000 <= maxTimeValue ->
  gt (reminderTime_of (Num t) n) (Num now) = bool_decide (now < t - m * 60000).
Proof.
  intros Ht Hm Hnow Hmax. rewrite (reminderTime_of_Num t m n Ht Hm). simpl.
  destruct (Z.ltb_spec maxTimeValue (Z.abs (t - m * 60000))); simpl.
  - symmetry. apply bool_decide_eq_false. lia.
  - destruct (Z.ltb_spec now (t - m * 60000)); symmetry.
    + by apply bool_decide_eq_true.
    + apply bool_decide_eq_false. lia.
Qed.

Lemma appends_jobs_ret {A} P (a : A) : appends_jobs P (ret a).
Proof. intros w. exists []. by rewrite app_nil_r. Qed.

Lemma appends_jobs_bind {A B} P (m : M A) (k : A -> M B) :
  appends_jobs P m -> (forall a, appends_jobs P (k a)) ->
  appends_jobs P (bind m k).
Proof.
  intros Hm Hk w. unfold bind.
  destruct (Hm w) as (l1 & E1 & F1).
  destruct (m w) as [[a|e] w1]; simpl in *.
  - destruct (Hk a w1) as (l2 & E2 & F2).
    exists (l1 ++ l2)%list. rewrite E2, E1, app_assoc. split; [done|].
    by apply Forall_app.
  - by exists l1.
Qed.

Lemma appends_jobs_forEach {A} P (l : list A) (f : A -> M unit) :
  (forall a, appends_jobs P (f a)) -> appends_jobs P (forEach l f).
Proof.
  intros Hf. induction l as [|a l IH]; simpl.
  - apply appends_jobs_ret.
  - apply appends_jobs_bind; [apply Hf|]. by intros _.
Qed.

Lemma getUpcomingEvents_jobs w : jobs (getUpcomingEvents env w).2 = jobs w.
Proof.
  unfold getUpcomingEvents, try_catch, bind, new_Date_now, console_error, ret.
  simpl. by destruct (calendar_events_list _ _ _).
Qed.

Lemma appends_jobs_notification event n :
  appends_jobs (fires_at_offset env)
    (scheduleReminders_notification env event (startTime_of env event) n).
Proof.
  intros w. rewrite notification_step. simpl.
  destruct (gt _ _) eqn:G; simpl.
  - eexists. split; [done|]. constructor; [|done].
    destruct (gt_reminderTime _ _ _ (startTime_of_range event) G)
      as (t & m & Ht & Hm & Hr & _).
    exists t, m. simpl. by rewrite Hr.
  - exists []. by rewrite app_nil_r.
Qed.

End Scheduling.

(** C3: every job that a poll cycle schedules fires at its event's start
    instant minus its offset of m minutes, that is m * 60000 ms. *)
Theorem fire_instant_is_start_minus_offset (env : Env)
  (times : list Notification) (w : World) :
  exists added,
    jobs (scheduleReminders env times w).2 = (jobs w ++ added)%list
    /\ Forall (fires_at_offset env) added.
Proof.
  revert w. change (appends_jobs (fires_at_offset env) (scheduleReminders env times)).
  unfold scheduleReminders. apply appends_jobs_bind.
  - intros w. exists []. by rewrite app_nil_r, getUpcomingEvents_jobs.
  - intros events. apply appends_jobs_forEach. intros event.
    unfold scheduleReminders_event. apply appends_jobs_forEach.
    apply appends_jobs_notification.
Qed.

Example sample_poll_jobs :
  jobs (scheduleReminders Sample.env Sample.times initial).2
  = [ {| fireDate := Num 1893405600000; job_event := Sample.meeting;
         job_notification :=
           {| time := None; type := None; template := None;
              minutes := Some (Num 1440); originalTime := Some "1 day" |} |};
      {| fireDate := Num 1893491400000; job_event := Sample.meeting;
         job_notification := Sample.ten_minutes |} ].
Proof. vm_compute. reflexivity. Qed.

Section Plan.

Context (env : Env) (now : Z).
Hypothesis clock_stands : forall k, Date_now env k = now.
Hypothesis now_in_range : - maxTimeValue <= now.

(** Under a clock that stands at [now], the inner loop appends the plan of
    the event. *)
Lemma forEach_notifications event times w :
  representable env [event] times = true ->
  exists w',
    forEach times
      (scheduleReminders_notification env event (startTime_of env event)) w
    = (Normal tt, w')
    /\ jobs w' = (jobs w ++ buildPlan env now times event)%list.
Proof.
  unfold representable, buildPlan. simpl. rewrite andb_true_r.
  revert w. induction times as [|n times IH]; intros w Hr; simpl.
  - eexists. split; [done|]. by rewrite app_nil_r.
  - apply andb_true_iff in Hr as [Hn Hr].
    unfold bind at 1. rewrite notification_step. cbv zeta.
    rewrite clock_stands.
    match goal with
    | |- context [forEach times ?f ?w1] =>
        destruct (IH w1 Hr) as (w' & E & J)
    end.
    exists w'. split; [exact E|]. rewrite J. clear E J IH.
    pose proof (startTime_of_range env event) as Hv.
    destruct (startTime_of env event) as [t|b|] eqn:Ht; [|done|].
    + destruct (minutes n) as [[m|b|]|] eqn:Hm.
      * apply Z.leb_le in Hn.
        rewrite (reminderTime_future t m n now Hv Hm now_in_range Hn).
        destruct (bool_decide (now < t - m * 60000)) eqn:B; simpl; [|done].
        apply bool_decide_eq_true in B.
        rewrite (reminderTime_of_Num t m n Hv Hm). simpl.
        destruct (Z.ltb_spec maxTimeValue (Z.abs (t - m * 60000))); [lia|].
        by rewrite <- app_assoc.
      * rewrite reminderTime_of_invalid; [done|done|congruence].
      * rewrite reminderTime_of_invalid; [done|done|congruence].
      * rewrite reminderTime_of_invalid; [done|done|congruence].
    + rewrite reminderTime_of_invalid; [done|done|congruence].
Qed.

End Plan.

Section Cycle.

Context (env : Env) (now : Z).
Hypothesis clock_stands : forall k, Date_now env k = now.
Hypothesis now_in_range : - maxTimeValue <= now.

Lemma forEach_events events times w :
  representable env events times = true ->
  exists w',
    forEach events (scheduleReminders_event env times) w = (Normal tt, w')
    /\ jobs w' = (jobs w ++ flat_map (buildPlan env now times) events)%list.
Proof.
  revert w. induction events as [|event events IH]; intros w Hr; simpl.
  - eexists. split; [done|]. by rewrite app_nil_r.
  - unfold representable in Hr. simpl in Hr.
    apply andb_true_iff in Hr as [He Hr].
    destruct (forEach_notifications env now clock_stands now_in_range
                event times w) as (w1 & E1 & J1).
    { unfold representable. simpl. by rewrite andb_true_r. }
    destruct (IH w1 Hr) as (w' & E & J).
    exists w'. unfold bind, scheduleReminders_event at 1. rewrite E1.
    split; [exact E|]. by rewrite J, J1, <- app_assoc.
Qed.

Lemma buildPlan_elem event times j :
  j ∈ buildPlan env now times event <->
  exists n t m,
    n ∈ times /\ startTime_of env event = Num t /\ minutes n = Some (Num m)
    /\ now < t - m * 60000
    /\ j = {| fireDate := Num (t - m * 60000); job_event := event;
              job_notification := n |}.
Proof.
  unfold buildPlan. rewrite list_elem_of_In, in_flat_map. split.
  - intros (n & Hn & Hj). apply list_elem_of_In in Hn.
    destruct (startTime_of env event) as [t|b|];
      [|by destruct Hj|by destruct Hj].
    destruct (minutes n) as [[m|b|]|] eqn:Hm; try by destruct Hj.
    cbv zeta in Hj. case_bool_decide; [|by destruct Hj].
    destruct Hj as [<-|[]]. by exists n, t, m.
  - intros (n & t & m & Hn & -> & Hm & Hlt & ->).
    exists n. split; [by apply list_elem_of_In|].
    rewrite Hm. cbv zeta. rewrite bool_decide_eq_true_2 by done. by left.
Qed.

End Cycle.

(** C2: in a poll cycle at the instant [now], the pair of an event and an
    offset of m minutes gets a job if and only if the event's start minus
    m minutes is strictly after [now]: the cycle appends exactly the plans
    of the fetched events, and a fire instant equal to [now] is left out. *)
Theorem scheduled_iff_strictly_future (env : Env) (now : Z)
  (times : list Notification) (events : list Event) (w : World) :
  (forall k, Date_now env k = now) ->
  - maxTimeValue <= now ->
  (forall request,
     calendar_events_list env (length (calendar_requests w)) request
     = Normal events) ->
  representable env events times = true ->
  exists w',
    scheduleReminders env times w = (Normal tt, w')
    /\ jobs w' = (jobs w ++ flat_map (buildPlan env now times) events)%list
    /\ forall e n t m,
         e ∈ events -> n ∈ times ->
         startTime_of env e = Num t -> minutes n = Some (Num m) ->
         ({| fireDate := Num (t - m * 60000); job_event := e;
             job_notification := n |}
            ∈ flat_map (buildPlan env now times) events
          <-> now < t - m * 60000).
Proof.
  intros Hclock Hnow Hfetch Hr.
  assert (exists w1, getUpcomingEvents env w = (Normal events, w1)
                     /\ jobs w1 = jobs w) as (w1 & E1 & J1).
  { unfold getUpcomingEvents, try_catch, bind, new_Date_now. simpl.
    rewrite Hfetch. by eexists. }
  destruct (forEach_events env now Hclock Hnow events times w1 Hr)
    as (w' & E & J).
  exists w'. split; [|split].
  - unfold scheduleReminders, bind. by rewrite E1.
  - by rewrite J, J1.
  - intros e n t m He Hn Ht Hm. split.
    + intros Hj. apply list_elem_of_In, in_flat_map in Hj.
      destruct Hj as (e' & _ & Hj). apply list_elem_of_In in Hj.
      apply buildPlan_elem in Hj.
      destruct Hj as (n' & t' & m' & _ & _ & _ & Hlt & Hj).
      injection Hj as Hf _ _. by rewrite Hf.
    + intros Hlt. apply list_elem_of_In, in_flat_map.
      exists e. split; [by apply list_elem_of_In|].
      apply list_elem_of_In, buildPlan_elem. by exists n, t, m.
Qed.

Lemma scheduled_iff_strictly_future_witness :
  exists w',
    scheduleReminders Sample.env Sample.times initial = (Normal tt, w')
    /\ jobs w'
       = (jobs initial
          ++ flat_map (buildPlan Sample.env 1893300000000 Sample.times)
               [Sample.meeting])%list
    /\ forall e n t m,
         e ∈ [Sample.meeting] -> n ∈ Sample.times ->
         startTime_of Sample.env e = Num t -> minutes n = Some (Num m) ->
         ({| fireDate := Num (t - m * 60000); job_event := e;
             job_notification := n |}
            ∈ flat_map (buildPlan Sample.env 1893300000000 Sample.times)
                [Sample.meeting]
          <-> 1893300000000 < t - m * 60000).
Proof.
  apply (scheduled_iff_strictly_future Sample.env 1893300000000
           Sample.times [Sample.meeting] initial).
  - intros k. reflexivity.
  - vm_compute. discriminate.
  - intros request. reflexivity.
  - vm_compute. reflexivity.
Defined.

(** A reminder due exactly at [now] is dropped, one due a millisecond
    later is scheduled. *)
Example boundary_dropped :
  let at_start :=
    {| time := None; type := None; template := None;
       minutes := Some (Num 0); originalTime := Some "0 minutes" |} in
  buildPlan Sample.env 1893492000000 [at_start] Sample.meeting = []
  /\ length (buildPlan Sample.env 1893491999999 [at_start] Sample.meeting) = 1%nat.
Proof. split; vm_compute; reflexivity. Qed.

(** C1, as the specification states it, fails: a second poll cycle that
    finds the same event again gives the pair (event, 10 minutes) a second
    pending job. *)
Lemma repoll_duplicates_job :
  let w1 := (poll Sample.env Sample.times initial).2 in
  let w2 := (poll Sample.env Sample.times w1).2 in
  length (jobs_of "evt1" Sample.ten_minutes (jobs w1)) = 1%nat
  /\ length (jobs_of "evt1" Sample.ten_minutes (jobs w2)) = 2%nat.
Proof. vm_compute. split; reflexivity. Qed.

(** C1, amended: the program keeps no registry of job keys; the scheduling
    step for a pair (event, notification) whose reminder time is after the
    clock reading gives the pair one more pending job, whatever jobs it
    already has, and leaves the pending jobs as they are otherwise. *)
Theorem reschedule_adds_another_job (env : Env) (event : Event)
  (n : Notification) (w : World) :
  let startTime := startTime_of env event in
  let now := Num (Date_now env (clock_reads w)) in
  let w' := (scheduleReminders_notification env event startTime n w).2 in
  (gt (reminderTime_of startTime n) now = true ->
   length (jobs_of (event_id event) n (jobs w'))
   = S (length (jobs_of (event_id event) n (jobs w))))
  /\ (gt (reminderTime_of startTime n) now = false -> jobs w' = jobs w).
Proof.
  cbv zeta. rewrite notification_step. cbv zeta. split; intros ->; simpl.
  - unfold jobs_of. rewrite filter_app, length_app, filter_cons_True by done.
    simpl. lia.
  - done.
Qed.

Lemma reschedule_adds_another_job_witness :
  let w1 := (poll Sample.env Sample.times initial).2 in
  let w2 :=
    (scheduleReminders_notification Sample.env Sample.meeting
       (startTime_of Sample.env Sample.meeting) Sample.ten_minutes w1).2 in
  length (jobs_of "evt1" Sample.ten_minutes (jobs w2))
  = S (length (jobs_of "evt1" Sample.ten_minutes (jobs w1))).
Proof.
  apply (proj1 (reschedule_adds_another_job Sample.env Sample.meeting
                  Sample.ten_minutes (poll Sample.env Sample.times initial).2)).
  vm_compute. reflexivity.
Defined.

(** ** The poll cycle when the calendar fails *)

(** C6: when the request to the calendar fails, [getUpcomingEvents] logs
    the error and returns the empty list; the cycle schedules no job and
    ends normally, with no rejection. *)
Theorem fetch_failure_is_empty_cycle (env : Env) (times : list Notification)
  (w : World) (e : Error) :
  (forall request,
     calendar_events_list env (length (calendar_requests w)) request = Throw e) ->
  exists w1,
    getUpcomingEvents env w = (Normal [], w1)
    /\ console w1 = (console w ++ [("Error fetching calendar events:", e)])%list
    /\ jobs w1 = jobs w
    /\ unhandledRejections w1 = unhandledRejections w
    /\ scheduleReminders env times w = (Normal tt, w1)
    /\ poll env times w = (Normal tt, w1).
Proof.
  intros Hfetch.
  assert (exists w1, getUpcomingEvents env w = (Normal [], w1)
            /\ console w1
               = (console w ++ [("Error fetching calendar events:", e)])%list
            /\ jobs w1 = jobs w
            /\ unhandledRejections w1 = unhandledRejections w)
    as (w1 & E & Hc & Hj & Hu).
  { unfold getUpcomingEvents, try_catch, bind, new_Date_now. simpl.
    rewrite Hfetch. by eexists. }
  exists w1. repeat split; try done.
  - unfold scheduleReminders, bind. by rewrite E.
  - unfold poll, detached, scheduleReminders, bind. by rewrite E.
Qed.

Lemma fetch_failure_is_empty_cycle_witness :
  exists w1,
    getUpcomingEvents Sample.offline initial = (Normal [], w1)
    /\ console w1
       = (console initial
          ++ [("Error fetching calendar events:", Sample.unreachable)])%list
    /\ jobs w1 = jobs initial
    /\ unhandledRejections w1 = unhandledRejections initial
    /\ scheduleReminders Sample.offline Sample.times initial = (Normal tt, w1)
    /\ poll Sample.offline Sample.times initial = (Normal tt, w1).
Proof.
  apply (fetch_failure_is_empty_cycle Sample.offline Sample.times initial
           Sample.unreachable).
  intros request. reflexivity.
Defined.

(** ** Dispatch *)

Section Dispatch.

Context (env : Env).

Lemma same_outputs_refl w : same_outputs w w.
Proof. by repeat split. Qed.

(** Looking a template up touches the cache and the file system only. *)
Lemma getTemplate_outputs templateName w :
  same_outputs w (getTemplate env templateName w).2.
Proof.
  unfold getTemplate. destruct (templates_get _ _); [apply same_outputs_refl|].
  unfold bind, lift, fs_readFileSync.
  destruct (path_join _); [|apply same_outputs_refl].
  destruct (readFileSync _ _ _); by repeat split.
Qed.

Lemma call_template_world t eventData w :
  (call_template env t eventData w).2 = w.
Proof. by destruct t. Qed.

Lemma sendSlackMessage_eq message w :
  sendSlackMessage env message w
  = let sent :=
      set_slack_requests (slack_requests w ++ [slack_request env message]) w in
    match slack_chat_postMessage env (length (slack_requests w))
            (slack_request env message) with
    | Normal _ => (Normal tt, sent)
    | Throw e =>
        (Normal tt,
         set_console (console w ++ [("Error sending Slack message:", e)]) sent)
    end.
Proof.
  unfold sendSlackMessage, try_catch, console_error, slack_request. simpl.
  by destruct (slack_chat_postMessage _ _ _) as [[]|].
Qed.

Lemma sendHiBobShoutout_eq message w :
  sendHiBobShoutout env message w
  = let sent :=
      set_hibob_requests (hibob_requests w ++ [hibob_request env message]) w in
    match hibob_post env (length (hibob_requests w))
            (hibob_request env message) with
    | Normal _ => (Normal tt, sent)
    | Throw e =>
        (Normal tt,
         set_console (console w ++ [("Error sending HiBob shoutout:", e)]) sent)
    end.
Proof.
  unfold sendHiBobShoutout, try_catch, console_error, hibob_request. simpl.
  by destruct (hibob_post _ _ _) as [[]|].
Qed.

(** What [sendNotification] does once the template is found and rendered. *)
Lemma sendNotification_rendered event cfg w t w1 message :
  getTemplate env (template cfg) w = (Normal t, w1) ->
  call_template env t (formatEventData env event) w1 = (Normal message, w1) ->
  sendNotification env event cfg w
  = if bool_decide (type cfg = Some "slack") then sendSlackMessage env message w1
    else if bool_decide (type cfg = Some "hibob")
         then sendHiBobShoutout env message w1
         else (Normal tt, w1).
Proof.
  intros Ht Hm. unfold sendNotification, bind. rewrite Ht, Hm.
  by repeat destruct (bool_decide _).
Qed.

(** What it does when the template cannot be found or rendered. *)
Lemma sendNotification_template_failure event cfg w :
  match getTemplate env (template cfg) w with
  | (Throw e, w1) => sendNotification env event cfg w = (Throw e, w1)
  | (Normal t, w1) =>
      match call_template env t (formatEventData env event) w1 with
      | (Throw e, w2) => sendNotification env event cfg w = (Throw e, w2)
      | _ => True
      end
  end.
Proof.
  unfold sendNotification, bind.
  destruct (getTemplate _ _ _) as [[t|e] w1]; [|done].
  by destruct (call_template _ _ _ _) as [[m|e] w2].
Qed.

(** When [sendNotification] is rejected, nothing was delivered and nothing
    was logged: the senders never throw, so the error comes from the
    template step, which no handler encloses. *)
Lemma sendNotification_rejected event cfg w e w1 :
  sendNotification env event cfg w = (Throw e, w1) -> same_outputs w w1.
Proof.
  pose proof (getTemplate_outputs (template cfg) w) as Ho.
  pose proof (sendNotification_template_failure event cfg w) as Hf.
  destruct (getTemplate env (template cfg) w) as [[t|e0] w0] eqn:Ht;
    simpl in Ho.
  - pose proof (call_template_world t (formatEventData env event) w0) as Hw.
    destruct (call_template env t (formatEventData env event) w0)
      as [[message|e1] w2] eqn:Hm; simpl in Hw; subst w2.
    + rewrite (sendNotification_rendered event cfg w t w0 message Ht Hm).
      rewrite sendSlackMessage_eq, sendHiBobShoutout_eq. cbv zeta.
      destruct (bool_decide _); [by destruct (slack_chat_postMessage _ _ _)|].
      destruct (bool_decide _); [by destruct (hibob_post _ _ _)|done].
    + rewrite Hf. by intros [= _ <-].
  - rewrite Hf. by intros [= _ <-].
Qed.

(** The callback of a job turns such a rejection into an unhandled one. *)
Lemma job_callback_rejected j w e w1 :
  sendNotification env (job_event j) (job_notification j) w = (Throw e, w1) ->
  job_callback env j w
  = (Normal tt, set_unhandledRejections (unhandledRejections w1 ++ [e]) w1).
Proof. intros H. unfold job_callback, detached. by rewrite H. Qed.

End Dispatch.

(** C7 fails on the code: nothing catches or logs a failure of the
    template step.  The job that the poll cycle schedules for the sample
    event carries an entry of [NOTIFICATION_TIMES], which has no
    [template]: when it fires, [getTemplate] throws, the promise of
    [sendNotification] is rejected without a handler and the log stays
    empty.  The same happens for a rule whose template file is missing. *)
Theorem template_failure_is_unhandled :
  let path_error :=
    mkError "TypeError"
      ("The " +:+ dquote +:+ "path" +:+ dquote
       +:+ " argument must be of type string. Received undefined") in
  let w1 := (poll Sample.env Sample.times initial).2 in
  let fired := fire Sample.env 1 w1 in
  let missing := Sample.rule "1 day" "hibob" "hibob.hbs" in
  let job :=
    {| fireDate := Num 1893405600000; job_event := Sample.meeting;
       job_notification := missing |} in
  (jobs w1 !! 1%nat
   = Some {| fireDate := Num 1893491400000; job_event := Sample.meeting;
             job_notification := Sample.ten_minutes |}
   /\ (sendNotification Sample.env Sample.meeting Sample.ten_minutes w1).1
      = Throw path_error
   /\ fired.1 = Normal tt
   /\ console fired.2 = []
   /\ slack_requests fired.2 = [] /\ hibob_requests fired.2 = []
   /\ unhandledRejections fired.2 = [path_error])
  /\ ((sendNotification Sample.env Sample.meeting missing initial).1
      = Throw Sample.ENOENT
      /\ console (job_callback Sample.env job initial).2 = []
      /\ hibob_requests (job_callback Sample.env job initial).2 = []
      /\ unhandledRejections (job_callback Sample.env job initial).2
         = [Sample.ENOENT]).
Proof. vm_compute. repeat split. Qed.

(** C8: a failed delivery is caught in the sender, which logs it, makes
    its request once and returns normally; so a fired job whose template
    was found and rendered ends normally whatever the delivery service
    replies, with no rejection left unhandled, at most the one request to
    each service, and the other pending jobs still in place. *)
Theorem delivery_failure_is_contained (env : Env) (message : string)
  (event : Event) (cfg : Notification) (d : number) (w : World) :
  (sendSlackMessage env message w
   = let sent :=
       set_slack_requests (slack_requests w ++ [slack_request env message]) w in
     match slack_chat_postMessage env (length (slack_requests w))
             (slack_request env message) with
     | Normal _ => (Normal tt, sent)
     | Throw e =>
         (Normal tt,
          set_console (console w ++ [("Error sending Slack message:", e)]) sent)
     end)
  /\ (sendHiBobShoutout env message w
      = let sent :=
          set_hibob_requests (hibob_requests w ++ [hibob_request env message]) w in
        match hibob_post env (length (hibob_requests w))
                (hibob_request env message) with
        | Normal _ => (Normal tt, sent)
        | Throw e =>
            (Normal tt,
             set_console (console w ++ [("Error sending HiBob shoutout:", e)])
               sent)
        end)
  /\ (forall t w1 rendered,
        getTemplate env (template cfg) w = (Normal t, w1) ->
        call_template env t (formatEventData env event) w1
        = (Normal rendered, w1) ->
        let fired :=
          job_callback env
            {| fireDate := d; job_event := event; job_notification := cfg |} w in
        fired.1 = Normal tt
        /\ unhandledRejections fired.2 = unhandledRejections w
        /\ jobs fired.2 = jobs w
        /\ (length (slack_requests fired.2) <= S (length (slack_requests w)))%nat
        /\ (length (hibob_requests fired.2) <= S (length (hibob_requests w)))%nat).
Proof.
  split; [apply sendSlackMessage_eq|]. split; [apply sendHiBobShoutout_eq|].
  intros t w1 rendered Ht Hm. cbv zeta.
  unfold job_callback, detached. simpl.
  rewrite (sendNotification_rendered env event cfg w t w1 rendered Ht Hm).
  pose proof (getTemplate_outputs env (template cfg) w) as Ho.
  rewrite Ht in Ho. destruct Ho as (_ & Hs & Hh & Hj & Hu). simpl in *.
  destruct (bool_decide (type cfg = Some "slack")).
  - rewrite sendSlackMessage_eq. cbv zeta.
    destruct (slack_chat_postMessage _ _ _); simpl;
      rewrite ?length_app, Hs, Hh, Hj, Hu; simpl; repeat split; lia.
  - destruct (bool_decide (type cfg = Some "hibob")).
    + rewrite sendHiBobShoutout_eq. cbv zeta.
      destruct (hibob_post _ _ _); simpl;
        rewrite ?length_app, Hs, Hh, Hj, Hu; simpl; repeat split; lia.
    + simpl. rewrite Hs, Hh, Hj, Hu. repeat split; lia.
Qed.

Lemma delivery_failure_is_contained_witness :
  let cfg := Sample.rule "10 minutes" "slack" "slack.hbs" in
  let fired :=
    job_callback Sample.env
      {| fireDate := Num 1893491400000; job_event := Sample.meeting;
         job_notification := cfg |} initial in
  fired.1 = Normal tt
  /\ unhandledRejections fired.2 = unhandledRejections initial
  /\ jobs fired.2 = jobs initial
  /\ (length (slack_requests fired.2) <= S (length (slack_requests initial)))%nat
  /\ (length (hibob_requests fired.2) <= S (length (hibob_requests initial)))%nat.
Proof.
  refine (proj2 (proj2 (delivery_failure_is_contained Sample.env "Reminder"
                          Sample.meeting
                          (Sample.rule "10 minutes" "slack" "slack.hbs")
                          (Num 1893491400000) initial))
            (Compiled "Reminder")
            (set_templates (<["slack.hbs" := Compiled "Reminder"]> ∅)
               (set_fs_reads ["/app/config/templates/slack.hbs"] initial))
            "Reminder" _ _).
  - reflexivity.
  - reflexivity.
Defined.

(** Two chat jobs fire one after the other; the first delivery fails, the
    second one is made and succeeds. *)
Example failed_delivery_then_delivery :
  let j :=
    {| fireDate := Num 1893491400000; job_event := Sample.meeting;
       job_notification := Sample.rule "10 minutes" "slack" "slack.hbs" |} in
  let first := fire Sample.env 0 (set_jobs [j; j] initial) in
  let second := fire Sample.env 0 first.2 in
  first.1 = Normal tt /\ second.1 = Normal tt
  /\ console first.2 = [("Error sending Slack message:", Sample.unreachable)]
  /\ console second.2 = [("Error sending Slack message:", Sample.unreachable)]
  /\ slack_requests second.2
     = [slack_request Sample.env "Reminder"; slack_request Sample.env "Reminder"]
  /\ unhandledRejections second.2 = []
  /\ jobs second.2 = [].
Proof. vm_compute. repeat split. Qed.

(** C9 fails on the code, by the defect of C7: the template is looked up
    and rendered before the channel is chosen, outside any handler, so a
    job whose channel matches neither sender raises an error when that
    step fails, where the dispatch should have been a silent no-op: the
    job that a poll cycle schedules (no [type], no [template]) and a rule
    of type [email] whose template file is missing. *)
Lemma unmatched_type_raises :
  let email := Sample.rule "1 hour" "email" "email.hbs" in
  (type Sample.ten_minutes <> Some "slack"
   /\ type Sample.ten_minutes <> Some "hibob"
   /\ (sendNotification Sample.env Sample.meeting Sample.ten_minutes initial).1
      = Throw (mkError "TypeError"
                 ("The " +:+ dquote +:+ "path" +:+ dquote
                  +:+ " argument must be of type string. Received undefined")))
  /\ (type email <> Some "slack" /\ type email <> Some "hibob"
      /\ (sendNotification Sample.env Sample.meeting email initial).1
         = Throw Sample.ENOENT).
Proof. vm_compute. repeat split; discriminate. Qed.

(** ** The template cache *)

(** A member of [Object.prototype] is found without any read. *)
Example getTemplate_inherited :
  (getTemplate Sample.env (Some "constructor") initial).1
  = Normal (Inherited "constructor")
  /\ fs_reads (getTemplate Sample.env (Some "constructor") initial).2 = [].
Proof. vm_compute. split; reflexivity. Qed.

(** * Further properties *)

(** ** The offset parser on other inputs *)

Section ParserEdges.

Lemma split_three a u rest :
  no_space a = true -> no_space u = true ->
  split " " (a +:+ " " +:+ u +:+ " " +:+ rest) = a :: u :: split " " rest.
Proof.
  intros Ha Hu.
  change (" " +:+ u +:+ " " +:+ rest) with (String " " (u +:+ String " " rest)).
  by rewrite (split_append _ _ Ha), (split_append _ _ Hu).
Qed.

Lemma digits_prefix_stop d c rest acc :
  stops_decimal c = true ->
  digits_prefix 10 (NilEmpty.string_of_uint d +:+ String c rest) acc true
  = digits_prefix 10 (NilEmpty.string_of_uint d) acc true.
Proof.
  intros Hc. revert acc. induction d; intros acc; simpl; try apply IHd.
  unfold stops_decimal in Hc.
  destruct (digit_value c) as [v|]; [|done].
  apply Z.leb_le in Hc. destruct (Z.ltb_spec v 10); [lia|done].
Qed.

Lemma digits_prefix_start_stop d c rest :
  d <> Decimal.Nil -> stops_decimal c = true ->
  digits_prefix 10 (NilEmpty.string_of_uint d +:+ String c rest) 0 false
  = Some (Z.of_N (N.of_uint d)).
Proof.
  intros Hd Hc. rewrite <- digits_prefix_uint, <- (digits_prefix_stop d c rest 0 Hc).
  destruct d; done.
Qed.

End ParserEdges.

Section ParserSuffix.

Lemma to_uint_nonnil n : N.to_uint n <> Decimal.Nil.
Proof. destruct n; [done|]. apply DecimalPos.Unsigned.to_uint_nonnil. Qed.

Lemma decimal_uint n : decimal n = NilEmpty.string_of_uint (N.to_uint n).
Proof.
  unfold decimal, NilZero.string_of_uint.
  pose proof (to_uint_nonnil n). by destruct (N.to_uint n).
Qed.

Lemma no_space_append a b :
  no_space (a +:+ b) = no_space a && no_space b.
Proof.
  induction a as [|c a IH]; simpl; [done|]. by rewrite IH, andb_assoc.
Qed.

Lemma parseInt_uint_suffix d c rest :
  d <> Decimal.Nil -> stops_decimal c = true ->
  (d = Decimal.D0 Decimal.Nil -> c <> "x"%char /\ c <> "X"%char) ->
  parseInt (NilEmpty.string_of_uint d +:+ String c rest)
  = of_integer (Z.of_N (N.of_uint d)).
Proof.
  intros Hd Hc Hx. rewrite parseInt_prefix_free.
  - by rewrite digits_prefix_start_stop.
  - destruct d; done.
  - destruct d as [|d|d|d|d|d|d|d|d|d|d]; try done.
    destruct d; try done. simpl.
    destruct (Hx eq_refl) as [H1 H2].
    destruct c as [[] [] [] [] [] [] [] []]; done.
Qed.

Lemma parseInt_negative s :
  TrimStart s = s ->
  match s with
  | String "-" _ | String "+" _ => False
  | String "0" (String "x" _) | String "0" (String "X" _) => False
  | _ => True
  end ->
  parseInt (String "-" s)
  = match digits_prefix 10 s 0 false with
    | Some mathInt => of_integer (- mathInt)
    | None => NaN
    end.
Proof.
  intros Ht Hs. unfold parseInt.
  change (TrimStart (String "-" s)) with (String "-" s). cbv iota beta.
  destruct s as [|c s]; [done|].
  destruct c as [[] [] [] [] [] [] [] []]; try done.
  all: try (destruct (digits_prefix 10 _ 0 false); [f_equal; lia|done]).
  destruct s as [|c s].
  - done.
  - destruct c as [[] [] [] [] [] [] [] []]; try done.
    all: destruct (digits_prefix 10 _ 0 false); [f_equal; lia|done].
Qed.

Lemma parseInt_negative_decimal n :
  parseInt ("-" +:+ decimal n) = of_integer (- Z.of_N n).
Proof.
  rewrite decimal_uint. pose proof (to_uint_nonnil n) as Hd.
  change ("-" +:+ ?s) with (String "-" s). rewrite parseInt_negative.
  - by rewrite (digits_prefix_start _ Hd), DecimalN.Unsigned.of_to.
  - destruct (N.to_uint n); done.
  - destruct (N.to_uint n) as [|d|d|d|d|d|d|d|d|d|d]; try done. destruct d; done.
Qed.

End ParserSuffix.

(** X1: the parser looks at the first two words only; whatever follows the
    unit after a further space is ignored. *)
Theorem parse_ignores_further_words (amount u rest : string) :
  no_space amount = true -> no_space u = true ->
  parseTimeToMinutes (amount +:+ " " +:+ u +:+ " " +:+ rest)
  = parseTimeToMinutes (amount +:+ " " +:+ u).
Proof.
  intros Ha Hu. unfold parseTimeToMinutes.
  by rewrite (split_three _ _ rest Ha Hu), (split_amount_unit _ _ Ha Hu).
Qed.

Lemma parse_ignores_further_words_witness :
  parseTimeToMinutes "4 hours before" = parseTimeToMinutes "4 hours".
Proof.
  exact (parse_ignores_further_words "4" "hours" "before" eq_refl eq_refl).
Defined.

(** X2: [parseInt] reads the leading decimal digits of the amount and
    ignores the rest of the word, so ["1.5 hours"] counts as one hour and
    ["10min minutes"] as ten minutes (for a product of at most 2^53,
    which doubles hold exactly). *)
Theorem parse_reads_leading_digits (n : N) (c : ascii) (rest u : string) (k : Z) :
  stops_decimal c = true ->
  no_space (String c rest) = true ->
  (n = 0%N -> c <> "x"%char /\ c <> "X"%char) ->
  unit_factor u = Some k ->
  Z.of_N n * k <= 2 ^ 53 ->
  parseTimeToMinutes ((decimal n +:+ String c rest) +:+ " " +:+ u)
  = Normal (Num (Z.of_N n * k)).
Proof.
  intros Hc Hsp Hx Hk Hb.
  pose proof (unit_factor_no_space _ _ Hk) as Hu.
  assert (no_space (decimal n +:+ String c rest) = true) as Ha.
  { by rewrite no_space_append, no_space_decimal, Hsp. }
  pose proof (split_amount_unit _ _ Ha Hu) as Hs.
  rewrite (parse_recognized _ u k), Hs; [|by rewrite Hs|done].
  simpl hd. rewrite decimal_uint, parseInt_uint_suffix.
  - rewrite DecimalN.Unsigned.of_to.
    rewrite (times_factor_exact _ u k Hk); [done|].
    rewrite Z.abs_eq by lia. exact Hb.
  - apply to_uint_nonnil.
  - done.
  - intros H0. apply Hx.
    rewrite <- (DecimalN.Unsigned.of_to n), H0. done.
Qed.

Lemma parse_reads_leading_digits_witness :
  parseTimeToMinutes "1.5 hours" = Normal (Num 60).
Proof.
  apply (parse_reads_leading_digits 1 "." "5" "hours" 60).
  - reflexivity.
  - reflexivity.
  - intros H. discriminate H.
  - reflexivity.
  - vm_compute. discriminate.
Defined.

(** X3: a minus sign before the amount is read as a sign: the parser
    accepts the offset and returns a negative minute count (exactly the
    negated product when that is at most 2^53 in size). *)
Theorem parse_negative_amount (n : N) (u : string) (k : Z) :
  unit_factor u = Some k ->
  Z.of_N n * k <= 2 ^ 53 ->
  parseTimeToMinutes (("-" +:+ decimal n) +:+ " " +:+ u)
  = Normal (Num (- (Z.of_N n * k))).
Proof.
  intros Hk Hb.
  pose proof (unit_factor_no_space _ _ Hk) as Hu.
  assert (no_space ("-" +:+ decimal n) = true) as Ha.
  { by rewrite no_space_append, no_space_decimal. }
  pose proof (split_amount_unit _ _ Ha Hu) as Hs.
  rewrite (parse_recognized _ u k), Hs; [|by rewrite Hs|done].
  simpl hd. rewrite parseInt_negative_decimal.
  rewrite (times_factor_exact _ u k Hk).
  - do 2 f_equal. lia.
  - rewrite Z.abs_opp, Z.abs_eq by lia. exact Hb.
Qed.

Lemma parse_negative_amount_witness :
  parseTimeToMinutes "-5 minutes" = Normal (Num (-5)).
Proof.
  apply (parse_negative_amount 5 "minutes" 1 eq_refl).
  vm_compute. discriminate.
Defined.

(** ** The start-up conversion of the configuration *)

Section Configuration.

Lemma notification_time_Normal c n :
  notification_time c = Normal n <->
  exists t m,
    time c = Some t /\ parseTimeToMinutes t = Normal m
    /\ n = {| time := None; type := None; template := None;
              minutes := Some m; originalTime := Some t |}.
Proof.
  unfold notification_time. split.
  - destruct (time c) as [t|]; [|done].
    destruct (parseTimeToMinutes t) as [m|e] eqn:Hm; [|done].
    intros H. inversion H. by exists t, m.
  - intros (t & m & -> & -> & ->). done.
Qed.

End Configuration.

(** X4: [NOTIFICATION_TIMES] is built exactly when every rule has a [time]
    that the parser accepts; it then has one entry per rule, in the order
    of the rules, made of the parsed minutes and the original text only:
    the rule's [type] and [template] are not carried over. *)
Theorem NOTIFICATION_TIMES_entries (cfg l : list Notification) :
  NOTIFICATION_TIMES cfg = Normal l <->
  Forall2
    (fun c n =>
       exists t m,
         time c = Some t /\ parseTimeToMinutes t = Normal m
         /\ n = {| time := None; type := None; template := None;
                   minutes := Some m; originalTime := Some t |})
    cfg l.
Proof.
  revert l. induction cfg as [|c cfg IH]; intros l; simpl.
  - split; [intros H; inversion H; constructor | intros H; by inversion H].
  - split.
    + destruct (notification_time c) as [n|e] eqn:Hn; [|done].
      destruct (NOTIFICATION_TIMES cfg) as [l'|e]; [|done].
      intros H. inversion H; subst.
      constructor; [by apply notification_time_Normal|]. by apply IH.
    + intros H. inversion H as [|? n ? l' Hc Hl]; subst.
      apply notification_time_Normal in Hc. apply IH in Hl.
      by rewrite Hc, Hl.
Qed.

Lemma NOTIFICATION_TIMES_entries_witness :
  Forall2
    (fun c n =>
       exists t m,
         time c = Some t /\ parseTimeToMinutes t = Normal m
         /\ n = {| time := None; type := None; template := None;
                   minutes := Some m; originalTime := Some t |})
    Sample.notifications Sample.times.
Proof.
  exact (proj1 (NOTIFICATION_TIMES_entries Sample.notifications Sample.times)
           eq_refl).
Defined.

(** X5: the conversion stops at the first rule that the parser rejects and
    throws that rule's error, whatever rules follow: one malformed offset
    keeps the program from starting. *)
Theorem NOTIFICATION_TIMES_first_error (good rest : list Notification)
  (bad : Notification) (t : string) (e : Error) :
  Forall (fun c => exists t m, time c = Some t
                               /\ parseTimeToMinutes t = Normal m) good ->
  time bad = Some t -> parseTimeToMinutes t = Throw e ->
  NOTIFICATION_TIMES (good ++ bad :: rest) = Throw e.
Proof.
  intros Hgood Ht He. induction Hgood as [|c good (t' & m & Hc & Hm) _ IH]; simpl.
  - unfold notification_time. by rewrite Ht, He.
  - unfold notification_time at 1. by rewrite Hc, Hm, IH.
Qed.

Lemma NOTIFICATION_TIMES_first_error_witness :
  NOTIFICATION_TIMES
    ([Sample.rule "1 day" "hibob" "hibob.hbs"]
     ++ Sample.rule "2 weeks" "slack" "slack.hbs"
        :: [Sample.rule "10 minutes" "slack" "slack.hbs"])
  = Throw (mkError "Error" "Unsupported time unit: weeks").
Proof.
  apply (NOTIFICATION_TIMES_first_error
           [Sample.rule "1 day" "hibob" "hibob.hbs"]
           [Sample.rule "10 minutes" "slack" "slack.hbs"]
           (Sample.rule "2 weeks" "slack" "slack.hbs") "2 weeks").
  - constructor; [|constructor]. exists "1 day", (Num 1440). split; reflexivity.
  - reflexivity.
  - reflexivity.
Defined.

(** ** What a poll cycle does and does not do *)

Section CycleFrame.

Context (env : Env).

Lemma returns_ret {A} (a : A) : returns (ret a).
Proof. intros w. by exists a. Qed.

Lemma returns_bind {A B} (m : M A) (k : A -> M B) :
  returns m -> (forall a, returns (k a)) -> returns (bind m k).
Proof.
  intros Hm Hk w. unfold bind. destruct (Hm w) as [a Ha].
  destruct (m w) as [c w1]. simpl in Ha. subst c. apply Hk.
Qed.

Lemma returns_forEach {A} (l : list A) (f : A -> M unit) :
  (forall a, returns (f a)) -> returns (forEach l f).
Proof.
  intros Hf. induction l as [|a l IH]; simpl; [apply returns_ret|].
  apply returns_bind; [apply Hf|by intros _].
Qed.

Lemma preserves_ret {A X} (f : World -> X) (a : A) : preserves f (ret a).
Proof. by intros w. Qed.

Lemma preserves_bind {A B X} (f : World -> X) (m : M A) (k : A -> M B) :
  preserves f m -> (forall a, preserves f (k a)) -> preserves f (bind m k).
Proof.
  intros Hm Hk w. unfold bind. specialize (Hm w).
  destruct (m w) as [[a|e] w1]; simpl in *; [|done].
  by rewrite Hk.
Qed.

Lemma preserves_forEach {A X} (f : World -> X) (l : list A) (g : A -> M unit) :
  (forall a, preserves f (g a)) -> preserves f (forEach l g).
Proof.
  intros Hg. induction l as [|a l IH]; simpl; [apply preserves_ret|].
  apply preserves_bind; [apply Hg|by intros _].
Qed.

Lemma returns_notification event startTime n :
  returns (scheduleReminders_notification env event startTime n).
Proof. intros w. rewrite notification_step. by exists tt. Qed.

Lemma returns_getUpcomingEvents : returns (getUpcomingEvents env).
Proof.
  intros w. unfold getUpcomingEvents, try_catch, bind, new_Date_now. simpl.
  destruct (calendar_events_list _ _ _) as [events|e]; by eexists.
Qed.

Lemma returns_scheduleReminders times : returns (scheduleReminders env times).
Proof.
  unfold scheduleReminders.
  apply returns_bind; [apply returns_getUpcomingEvents|]. intros events.
  apply returns_forEach. intros event. unfold scheduleReminders_event.
  apply returns_forEach. intros n. apply returns_notification.
Qed.

(** The two loops leave a component alone as soon as the clock reading and
    the registration of a job do. *)
Lemma preserves_loops {X} (f : World -> X) times events :
  (forall n w, f (set_clock_reads n w) = f w) ->
  (forall j w, f (set_jobs j w) = f w) ->
  preserves f (forEach events (scheduleReminders_event env times)).
Proof.
  intros Hclock Hjobs.
  apply preserves_forEach. intros event. unfold scheduleReminders_event.
  apply preserves_forEach. intros n w. rewrite notification_step. cbv zeta.
  destruct (gt _ _); simpl; by rewrite ?Hjobs, Hclock.
Qed.

Lemma preserves_scheduleReminders {X} (f : World -> X) times :
  (forall n w, f (set_clock_reads n w) = f w) ->
  (forall j w, f (set_jobs j w) = f w) ->
  (forall r w, f (set_calendar_requests r w) = f w) ->
  (forall c w, f (set_console c w) = f w) ->
  preserves f (scheduleReminders env times).
Proof.
  intros Hclock Hjobs Hcal Hcon. unfold scheduleReminders.
  apply preserves_bind; [|intros events; by apply preserves_loops].
  intros w. unfold getUpcomingEvents, try_catch, bind, new_Date_now,
    console_error, ret. simpl.
  destruct (calendar_events_list _ _ _); simpl;
    by rewrite ?Hcon, Hcal, Hclock.
Qed.

(** The step appends nothing, or the job of its event and notification
    with a reminder time that compared greater than the clock reading. *)
Lemma appends_jobs_step (P : Job -> Prop) event n :
  (forall k,
     gt (reminderTime_of (startTime_of env event) n) (Num (Date_now env k)) = true ->
     P {| fireDate := reminderTime_of (startTime_of env event) n;
          job_event := event; job_notification := n |}) ->
  appends_jobs P
    (scheduleReminders_notification env event (startTime_of env event) n).
Proof.
  intros HP w. rewrite notification_step. cbv zeta.
  destruct (gt _ _) eqn:G; simpl.
  - eexists. split; [done|]. constructor; [by eapply HP|done].
  - exists []. by rewrite app_nil_r.
Qed.

Lemma appends_jobs_forEach_elem {A} P (l : list A) (f : A -> M unit) :
  (forall a, a ∈ l -> appends_jobs P (f a)) -> appends_jobs P (forEach l f).
Proof.
  induction l as [|a l IH]; intros Hf; simpl; [apply appends_jobs_ret|].
  apply appends_jobs_bind; [apply Hf; by left|].
  intros _. apply IH. intros b Hb. apply Hf. by right.
Qed.

Lemma appends_jobs_scheduleReminders (P : Job -> Prop) times :
  (forall event n, n ∈ times ->
     appends_jobs P
       (scheduleReminders_notification env event (startTime_of env event) n)) ->
  appends_jobs P (scheduleReminders env times).
Proof.
  intros HP. unfold scheduleReminders. apply appends_jobs_bind.
  - intros w. exists []. by rewrite app_nil_r, getUpcomingEvents_jobs.
  - intros events. apply appends_jobs_forEach. intros event.
    unfold scheduleReminders_event. apply appends_jobs_forEach_elem.
    intros n Hn. by apply HP.
Qed.

Lemma gt_reminderTime_valid startTime n now :
  gt (reminderTime_of startTime n) (Num now) = true ->
  exists v, reminderTime_of startTime n = Num v
            /\ Z.abs v <= maxTimeValue /\ now < v.
Proof.
  unfold reminderTime_of, new_Date_of_number.
  destruct (sub _ _) as [v|b|]; simpl; [|done|done].
  destruct (Z.ltb_spec maxTimeValue (Z.abs v)) as [|Hmax]; simpl; [done|].
  intros Hlt%Z.ltb_lt. by eexists.
Qed.

End CycleFrame.

(** X6: a poll cycle only schedules: however it ends, and also when it is
    started with its promise dropped, it loads no template, reads no file
    and sends nothing to either channel. *)
Theorem poll_cycle_only_schedules (env : Env) (times : list Notification)
  (w : World) :
  (let w' := (scheduleReminders env times w).2 in
   templates w' = templates w
   /\ fs_reads w' = fs_reads w
   /\ slack_requests w' = slack_requests w
   /\ hibob_requests w' = hibob_requests w)
  /\ (let w' := (poll env times w).2 in
      templates w' = templates w
      /\ fs_reads w' = fs_reads w
      /\ slack_requests w' = slack_requests w
      /\ hibob_requests w' = hibob_requests w).
Proof.
  pose proof (preserves_scheduleReminders env templates times) as H1.
  pose proof (preserves_scheduleReminders env fs_reads times) as H2.
  pose proof (preserves_scheduleReminders env slack_requests times) as H3.
  pose proof (preserves_scheduleReminders env hibob_requests times) as H4.
  specialize (H1 ltac:(done) ltac:(done) ltac:(done) ltac:(done) w).
  specialize (H2 ltac:(done) ltac:(done) ltac:(done) ltac:(done) w).
  specialize (H3 ltac:(done) ltac:(done) ltac:(done) ltac:(done) w).
  specialize (H4 ltac:(done) ltac:(done) ltac:(done) ltac:(done) w).
  cbv zeta. unfold poll, detached.
  destruct (scheduleReminders env times w) as [[[]|e] w']; simpl in *; done.
Qed.

(** X7: every cycle makes exactly one request to the calendar, for the
    events from the current clock reading on, at most [APP_MAX_EVENTS] of
    them, expanded and ordered by start time; a failed request is logged
    and not repeated within the cycle. *)
Theorem poll_cycle_one_request (env : Env) (times : list Notification)
  (w : World) :
  let request :=
    {| Calendar.calendarId := process_env env "GOOGLE_CALENDAR_ID";
       Calendar.timeMin := Num (Date_now env (clock_reads w));
       Calendar.maxResults :=
         parseInt (ToString (process_env env "APP_MAX_EVENTS"));
       Calendar.singleEvents := true;
       Calendar.orderBy := "startTime" |} in
  let w' := (scheduleReminders env times w).2 in
  calendar_requests w' = (calendar_requests w ++ [request])%list
  /\ console w'
     = match calendar_events_list env (length (calendar_requests w)) request with
       | Normal _ => console w
       | Throw e =>
           (console w ++ [("Error fetching calendar events:", e)])%list
       end.
Proof.
  cbv zeta. unfold scheduleReminders, bind.
  destruct (getUpcomingEvents env w) as [c w1] eqn:E.
  assert (exists events, c = Normal events) as [events ->].
  { destruct (returns_getUpcomingEvents env w) as [a Ha].
    rewrite E in Ha. by exists a. }
  pose proof (preserves_loops env calendar_requests times events
                ltac:(done) ltac:(done) w1) as Hcal.
  pose proof (preserves_loops env console times events
                ltac:(done) ltac:(done) w1) as Hcon.
  rewrite Hcal, Hcon. clear Hcal Hcon.
  unfold getUpcomingEvents, try_catch, bind, new_Date_now, console_error, ret
    in E. simpl in E.
  destruct (calendar_events_list _ _ _); inversion E; done.
Qed.

(** X8: every job that a cycle schedules has a date that is a time value
    of [Date] and lies strictly after a reading of the clock: no job is
    registered with an invalid date. *)
Theorem scheduled_jobs_are_future (env : Env) (times : list Notification)
  (w : World) :
  exists added,
    jobs (scheduleReminders env times w).2 = (jobs w ++ added)%list
    /\ Forall (fires_in_future env) added.
Proof.
  apply (appends_jobs_scheduleReminders env (fires_in_future env)).
  intros event n _. apply appends_jobs_step. intros k G.
  destruct (gt_reminderTime_valid _ _ _ G) as (v & Hv & Hmax & Hlt).
  exists v, k. simpl. by rewrite Hv.
Qed.

Section NeverScheduled.

Lemma parse_unreadable amount u k :
  no_space amount = true -> unit_factor u = Some k -> parseInt amount = NaN ->
  parseTimeToMinutes (amount +:+ " " +:+ u) = Normal NaN.
Proof.
  intros Ha Hk Hnan.
  pose proof (unit_factor_no_space _ _ Hk) as Hu.
  pose proof (split_amount_unit _ _ Ha Hu) as Hs.
  rewrite (parse_recognized _ u k), Hs; [|by rewrite Hs|done].
  simpl hd. rewrite Hnan. apply unit_factor_cases in Hk.
  by destruct Hk as [[_ ->] | [[_ ->] | [_ ->]]].
Qed.

End NeverScheduled.

(** X9: a rule whose amount [parseInt] cannot read (no leading digit) is
    accepted at start-up with a minute count of [NaN], and no poll cycle
    ever schedules a job for it. *)
Theorem unreadable_amount_never_scheduled (amount u : string) (k : Z)
  (c : Notification) :
  no_space amount = true -> unit_factor u = Some k -> parseInt amount = NaN ->
  time c = Some (amount +:+ " " +:+ u) ->
  exists n,
    notification_time c = Normal n
    /\ minutes n = Some NaN
    /\ forall env times w,
         exists added,
           jobs (scheduleReminders env times w).2 = (jobs w ++ added)%list
           /\ Forall (fun j => job_notification j <> n) added.
Proof.
  intros Ha Hk Hnan Ht. eexists. split; [|split].
  - unfold notification_time. by rewrite Ht, (parse_unreadable _ _ _ Ha Hk Hnan).
  - done.
  - intros env times w.
    apply (appends_jobs_scheduleReminders env
             (fun j => job_notification j <> _)).
    intros event n _. apply appends_jobs_step. intros k' G. simpl.
    destruct (gt_reminderTime _ _ _ (startTime_of_range env event) G)
      as (t & m & _ & Hm & _).
    intros ->. simpl in Hm. discriminate Hm.
Qed.

Lemma unreadable_amount_never_scheduled_witness :
  exists n,
    notification_time (Sample.rule "soon minutes" "slack" "slack.hbs") = Normal n
    /\ minutes n = Some NaN
    /\ forall env times w,
         exists added,
           jobs (scheduleReminders env times w).2 = (jobs w ++ added)%list
           /\ Forall (fun j => job_notification j <> n) added.
Proof.
  exact (unreadable_amount_never_scheduled "soon" "minutes" 1
           (Sample.rule "soon minutes" "slack" "slack.hbs")
           eq_refl eq_refl eq_refl eq_refl).
Defined.

Section NeverDelivered.

Context (env : Env).

Lemma NOTIFICATION_TIMES_elem cfg l n :
  NOTIFICATION_TIMES cfg = Normal l -> n ∈ l ->
  type n = None /\ template n = None.
Proof.
  revert l. induction cfg as [|c cfg IH]; intros l; simpl.
  - intros H. inversion H. by intros ?%elem_of_nil.
  - destruct (notification_time c) as [n'|e] eqn:Hn; [|done].
    destruct (NOTIFICATION_TIMES cfg) as [l'|e]; [|done].
    intros H. inversion H; subst. intros [->|Hin]%elem_of_cons.
    + apply notification_time_Normal in Hn as (t & m & _ & _ & ->). done.
    + by apply (IH l').
Qed.

(** A dispatch for a rule of neither channel delivers and logs nothing. *)
Lemma sendNotification_unmatched event cfg w :
  type cfg <> Some "slack" -> type cfg <> Some "hibob" ->
  same_outputs w (sendNotification env event cfg w).2.
Proof.
  intros Hs Hh.
  destruct (sendNotification env event cfg w) as [[[]|e] w'] eqn:E;
    [|by apply (sendNotification_rejected env event cfg w e)].
  pose proof (getTemplate_outputs env (template cfg) w) as Ho.
  pose proof (sendNotification_template_failure env event cfg w) as Hf.
  destruct (getTemplate env (template cfg) w) as [[t|e] w1] eqn:Ht;
    [|congruence].
  pose proof (call_template_world env t (formatEventData env event) w1) as Hw.
  destruct (call_template env t (formatEventData env event) w1)
    as [[message|e] w2] eqn:Hm; simpl in Hw; subst w2; [|congruence].
  rewrite (sendNotification_rendered env event cfg w t w1 message Ht Hm) in E.
  rewrite !bool_decide_eq_false_2 in E by done. by inversion E; subst.
Qed.

Lemma getTemplate_undefined w :
  templates w !! "undefined" = None ->
  getTemplate env None w
  = (Throw (mkError "TypeError"
              ("The " +:+ dquote +:+ "path" +:+ dquote
               +:+ " argument must be of type string. Received undefined")),
     w).
Proof.
  intros H. unfold getTemplate, templates_get. simpl. by rewrite H.
Qed.

End NeverDelivered.

(** X10: no job that the program schedules ever delivers anything.  The
    jobs carry entries of [NOTIFICATION_TIMES], which have neither [type]
    nor [template]: whenever such a job fires, in any state, it makes no
    request to the chat or the shout-out service and logs nothing; and
    unless a template was cached under the name [undefined], it ends in an
    unhandled [TypeError]. *)
Theorem scheduled_jobs_never_deliver (env : Env) (cfg times : list Notification)
  (w : World) :
  NOTIFICATION_TIMES cfg = Normal times ->
  exists added,
    jobs (scheduleReminders env times w).2 = (jobs w ++ added)%list
    /\ Forall
         (fun j =>
            forall w',
              (job_callback env j w').1 = Normal tt
              /\ slack_requests (job_callback env j w').2 = slack_requests w'
              /\ hibob_requests (job_callback env j w').2 = hibob_requests w'
              /\ console (job_callback env j w').2 = console w'
              /\ (templates w' !! "undefined" = None ->
                  unhandledRejections (job_callback env j w').2
                  = (unhandledRejections w'
                     ++ [mkError "TypeError"
                           ("The " +:+ dquote +:+ "path" +:+ dquote
                            +:+ " argument must be of type string. "
                            +:+ "Received undefined")])%list))
         added.
Proof.
  intros Hcfg.
  destruct (appends_jobs_scheduleReminders env
              (fun j => job_notification j ∈ times) times) with (w := w)
    as (added & Hj & Hadded).
  { intros event n Hn. apply appends_jobs_step. by intros k _. }
  exists added. split; [done|].
  eapply Forall_impl; [exact Hadded|]. intros j Hin w'. simpl in Hin.
  destruct (NOTIFICATION_TIMES_elem cfg times _ Hcfg Hin) as [Hty Htpl].
  pose proof (sendNotification_unmatched env (job_event j) (job_notification j)
                w' ltac:(by rewrite Hty) ltac:(by rewrite Hty))
    as (Hc & Hs & Hh & _ & _).
  pose proof (sendNotification_template_failure env (job_event j)
                (job_notification j) w') as Hf.
  unfold job_callback, detached.
  destruct (sendNotification env (job_event j) (job_notification j) w')
    as [[[]|e] w1] eqn:E; simpl in *.
  - repeat split; try done. intros Hu.
    rewrite Htpl, (getTemplate_undefined env w' Hu) in Hf. congruence.
  - repeat split; try done. intros Hu.
    rewrite Htpl, (getTemplate_undefined env w' Hu) in Hf.
    by inversion Hf; subst.
Qed.

Lemma scheduled_jobs_never_deliver_witness :
  exists added,
    jobs (scheduleReminders Sample.env Sample.times initial).2
    = (jobs initial ++ added)%list
    /\ Forall
         (fun j =>
            forall w',
              (job_callback Sample.env j w').1 = Normal tt
              /\ slack_requests (job_callback Sample.env j w').2
                 = slack_requests w'
              /\ hibob_requests (job_callback Sample.env j w').2
                 = hibob_requests w'
              /\ console (job_callback Sample.env j w').2 = console w'
              /\ (templates w' !! "undefined" = None ->
                  unhandledRejections (job_callback Sample.env j w').2
                  = (unhandledRejections w'
                     ++ [mkError "TypeError"
                           ("The " +:+ dquote +:+ "path" +:+ dquote
                            +:+ " argument must be of type string. "
                            +:+ "Received undefined")])%list))
         added.
Proof.
  exact (scheduled_jobs_never_deliver Sample.env Sample.notifications
           Sample.times initial eq_refl).
Defined.

Section Repeated.

Context (env : Env) (now : Z) (events : list Event).
Hypothesis clock_stands : forall k, Date_now env k = now.
Hypothesis now_in_range : - maxTimeValue <= now.
Hypothesis calendar_steady :
  forall k request, calendar_events_list env k request = Normal events.

Lemma poll_appends_plan times w :
  representable env events times = true ->
  exists w',
    poll env times w = (Normal tt, w')
    /\ jobs w' = (jobs w ++ flat_map (buildPlan env now times) events)%list.
Proof.
  intros Hr.
  assert (exists w1, getUpcomingEvents env w = (Normal events, w1)
                     /\ jobs w1 = jobs w) as (w1 & E1 & J1).
  { unfold getUpcomingEvents, try_catch, bind, new_Date_now. simpl.
    rewrite calendar_steady. by eexists. }
  destruct (forEach_events env now clock_stands now_in_range events times w1 Hr)
    as (w' & E & J).
  exists w'. unfold poll, detached, scheduleReminders, bind.
  rewrite E1, E. by rewrite J, J1.
Qed.

End Repeated.

(** X11: poll cycles accumulate.  While the calendar keeps returning the
    same events and the reminders stay in the future (the clock standing
    at [now]), [n] cycles in a row leave [n] copies of the plan among the
    pending jobs: every reminder would be sent once per cycle run before
    it fires. *)
Theorem polls_accumulate (env : Env) (now : Z) (events : list Event)
  (times : list Notification) (n : nat) (w : World) :
  (forall k, Date_now env k = now) ->
  - maxTimeValue <= now ->
  (forall k request, calendar_events_list env k request = Normal events) ->
  representable env events times = true ->
  exists w',
    polls env times n w = (Normal tt, w')
    /\ jobs w'
       = (jobs w
          ++ concat (replicate n (flat_map (buildPlan env now times) events)))%list.
Proof.
  intros Hclock Hnow Hcal Hr. revert w.
  induction n as [|n IH]; intros w; simpl.
  - exists w. split; [done|]. by rewrite app_nil_r.
  - destruct (poll_appends_plan env now events Hclock Hnow Hcal times w Hr)
      as (w1 & E1 & J1).
    destruct (IH w1) as (w' & E & J).
    exists w'. unfold bind. rewrite E1. split; [exact E|].
    by rewrite J, J1, <- app_assoc.
Qed.

Lemma polls_accumulate_witness :
  exists w',
    polls Sample.env Sample.times 3 initial = (Normal tt, w')
    /\ jobs w'
       = (jobs initial
          ++ concat
               (replicate 3
                  (flat_map (buildPlan Sample.env 1893300000000 Sample.times)
                     [Sample.meeting])))%list.
Proof.
  apply (polls_accumulate Sample.env 1893300000000 [Sample.meeting]
           Sample.times 3 initial).
  - intros k. reflexivity.
  - vm_compute. discriminate.
  - intros k request. reflexivity.
  - vm_compute. reflexivity.
Defined.

(** ** The template cache on other inputs *)

Section Cache.

Context (env : Env).

(** What a call does when the cache holds nothing under the name. *)
Lemma getTemplate_load name w :
  templates_get name w = None ->
  getTemplate env (Some name) w
  = let path := join_segments [dirname env; "config"; "templates"; name] in
    let w1 := set_fs_reads (fs_reads w ++ [path]) w in
    match readFileSync env (length (fs_reads w)) path with
    | Normal content =>
        (Normal (Compiled content),
         set_templates (<[name := Compiled content]> (templates w)) w1)
    | Throw e => (Throw e, w1)
    end.
Proof.
  intros H. unfold getTemplate. simpl ToString. rewrite H.
  unfold bind, lift, path_join, fs_readFileSync. simpl.
  by destruct (readFileSync _ _ _).
Qed.

Lemma templates_get_None name w :
  templates_get name w = None <->
  templates w !! name = None /\ name ∉ Object_prototype_keys.
Proof.
  unfold templates_get. destruct (templates w !! name).
  - split; [done|]. by intros [? _].
  - case_bool_decide; split; try done. by intros [_ ?].
Qed.

End Cache.

(** C10, as the specification states it, fails after a load that failed:
    nothing was cached, so the second call reads the file again, and it
    returns a template if the file has appeared meanwhile; the two calls
    are not the first call alone. *)
Lemma failed_load_is_read_again :
  let path := "/app/config/templates/hibob.hbs" in
  let first := getTemplate Sample.env (Some "hibob.hbs") initial in
  let again := getTemplate Sample.env (Some "hibob.hbs") first.2 in
  let restored := getTemplate Sample.restored (Some "hibob.hbs") first.2 in
  first.1 = Throw Sample.ENOENT
  /\ fs_reads first.2 = [path]
  /\ again.1 = Throw Sample.ENOENT
  /\ fs_reads again.2 = [path; path]
  /\ restored.1 = Normal (Compiled "Shoutout")
  /\ fs_reads restored.2 = [path; path].
Proof. vm_compute. repeat split. Qed.

(** C10, amended: a call reads the file system at most once; once a call
    has returned a template, every later call for the name returns that
    same template and changes nothing, whatever the files have become: no
    further read.  A call that fails caches nothing, and the next call for
    the name reads the file again. *)
Theorem getTemplate_cached (env env' : Env) (templateName : option string)
  (w : World) :
  let r := getTemplate env templateName w in
  (fs_reads r.2 = fs_reads w
   \/ exists path, fs_reads r.2 = (fs_reads w ++ [path])%list)
  /\ (forall t, r.1 = Normal t ->
      getTemplate env' templateName r.2 = (Normal t, r.2))
  /\ (forall e, r.1 = Throw e ->
      templates r.2 = templates w
      /\ forall name, templateName = Some name ->
           fs_reads (getTemplate env' templateName r.2).2
           = (fs_reads r.2
              ++ [join_segments [dirname env'; "config"; "templates"; name]])%list).
Proof.
  cbv zeta. split; [|split].
  - unfold getTemplate.
    destruct (templates_get _ _); [by left|].
    unfold bind, lift, fs_readFileSync.
    destruct (path_join _) as [p|e]; [|by left].
    destruct (readFileSync _ _ _); simpl; right; by eexists.
  - intros t Ht.
    assert (templates_get (ToString templateName)
              (getTemplate env templateName w).2 = Some t) as Hget.
    { unfold getTemplate in *.
      destruct (templates_get (ToString templateName) w) as [t0|] eqn:Hget.
      - simpl in *. by inversion Ht; subst.
      - unfold bind, lift, fs_readFileSync in *.
        destruct (path_join _) as [p|e]; [|done].
        destruct (readFileSync _ _ _) as [content|e]; [|done].
        simpl in *. inversion Ht; subst.
        unfold templates_get. simpl. by rewrite lookup_insert_eq. }
    unfold getTemplate at 1. by rewrite Hget.
  - intros e He.
    destruct (templates_get (ToString templateName) w) as [t0|] eqn:Hget.
    { unfold getTemplate in He. rewrite Hget in He. simpl in He.
      discriminate He. }
    destruct templateName as [name|].
    + simpl ToString in Hget.
      assert (forall l, templates_get name (set_fs_reads l w) = None) as Hget'
        by (intros l; exact Hget).
      rewrite (getTemplate_load env name w Hget) in *. cbv zeta in *.
      destruct (readFileSync env _ _) as [content|e0];
        [simpl in He; discriminate He|].
      simpl. split; [done|]. intros name' Hname. inversion Hname; subst name'.
      rewrite (getTemplate_load env' name _ (Hget' _)). cbv zeta.
      by destruct (readFileSync env' _ _).
    + unfold getTemplate. rewrite Hget. split; [done|]. intros name Hname.
      discriminate Hname.
Qed.

Lemma getTemplate_cached_witness :
  (let r := getTemplate Sample.env (Some "slack.hbs") initial in
   getTemplate Sample.offline (Some "slack.hbs") r.2
   = (Normal (Compiled "Reminder"), r.2))
  /\ (let r := getTemplate Sample.env (Some "hibob.hbs") initial in
      templates r.2 = templates initial
      /\ fs_reads (getTemplate Sample.restored (Some "hibob.hbs") r.2).2
         = (fs_reads r.2 ++ ["/app/config/templates/hibob.hbs"])%list).
Proof.
  split.
  - exact (proj1 (proj2 (getTemplate_cached Sample.env Sample.offline
                           (Some "slack.hbs") initial))
             (Compiled "Reminder") eq_refl).
  - cbv zeta.
    destruct (proj2 (proj2 (getTemplate_cached Sample.env Sample.restored
                              (Some "hibob.hbs") initial))
                Sample.ENOENT eq_refl) as [Ht Hr].
    split; [exact Ht|]. exact (Hr "hibob.hbs" eq_refl).
Defined.

(** X12: a load that fails is not remembered: the cache is left as it was
    and the next call for the name reads the file again, returning the
    template once the read succeeds. *)
Theorem getTemplate_failure_retried (env env' : Env) (name : string)
  (w w1 : World) (e : Error) (content : string) :
  getTemplate env (Some name) w = (Throw e, w1) ->
  dirname env' = dirname env ->
  readFileSync env' (length (fs_reads w1))
    (join_segments [dirname env; "config"; "templates"; name])
  = Normal content ->
  templates w1 = templates w
  /\ fs_reads w1
     = (fs_reads w
        ++ [join_segments [dirname env; "config"; "templates"; name]])%list
  /\ (getTemplate env' (Some name) w1).1 = Normal (Compiled content)
  /\ templates (getTemplate env' (Some name) w1).2 !! name
     = Some (Compiled content).
Proof.
  intros Hfail Hdir Hread.
  destruct (templates_get name w) as [t|] eqn:Hget.
  { unfold getTemplate in Hfail. simpl ToString in Hfail.
    rewrite Hget in Hfail. discriminate Hfail. }
  rewrite (getTemplate_load env name w Hget) in Hfail. cbv zeta in Hfail.
  assert (forall l, templates_get name (set_fs_reads l w) = None) as Hget'
    by (intros l; exact Hget).
  remember (join_segments [dirname env; "config"; "templates"; name]) as path
    eqn:Hpath.
  destruct (readFileSync env _ _) as [c|e0]; [discriminate Hfail|].
  inversion Hfail; subst w1 e0. clear Hfail.
  rewrite (getTemplate_load env' name _ (Hget' _)). cbv zeta.
  rewrite Hdir, <- Hpath, Hread. simpl. by rewrite lookup_insert_eq.
Qed.

Lemma getTemplate_failure_retried_witness :
  let w1 := (getTemplate Sample.env (Some "hibob.hbs") initial).2 in
  let restored :=
    {| process_env := process_env Sample.env; dirname := dirname Sample.env;
       Date_now := Date_now Sample.env; Date_parse := Date_parse Sample.env;
       toLocaleString := toLocaleString Sample.env;
       readFileSync := fun _ _ => Normal "Shoutout";
       Handlebars_render := Handlebars_render Sample.env;
       call_inherited := call_inherited Sample.env;
       calendar_events_list := calendar_events_list Sample.env;
       slack_chat_postMessage := slack_chat_postMessage Sample.env;
       hibob_post := hibob_post Sample.env |} in
  templates w1 = templates initial
  /\ fs_reads w1 = ["/app/config/templates/hibob.hbs"]
  /\ (getTemplate restored (Some "hibob.hbs") w1).1
     = Normal (Compiled "Shoutout")
  /\ templates (getTemplate restored (Some "hibob.hbs") w1).2 !! "hibob.hbs"
     = Some (Compiled "Shoutout").
Proof.
  cbv zeta.
  refine (getTemplate_failure_retried Sample.env _ "hibob.hbs" initial
            (getTemplate Sample.env (Some "hibob.hbs") initial).2
            Sample.ENOENT "Shoutout" _ _ _).
  - reflexivity.
  - reflexivity.
  - reflexivity.
Defined.

(** X13: loading a template changes the cache for its own name only: what
    the cache answers for every other name is as before. *)
Theorem getTemplate_other_names (env : Env) (name : option string)
  (other : string) (w : World) :
  other <> ToString name ->
  templates_get other (getTemplate env name w).2 = templates_get other w.
Proof.
  intros Hne. unfold getTemplate.
  destruct (templates_get (ToString name) w); [done|].
  unfold bind, lift, fs_readFileSync.
  destruct (path_join _); [|done].
  destruct (readFileSync _ _ _); [|done].
  unfold templates_get. simpl. by rewrite lookup_insert_ne.
Qed.

Lemma getTemplate_other_names_witness :
  templates_get "hibob.hbs"
    (getTemplate Sample.env (Some "slack.hbs") initial).2
  = templates_get "hibob.hbs" initial.
Proof.
  apply (getTemplate_other_names Sample.env (Some "slack.hbs") "hibob.hbs"
           initial).
  discriminate.
Defined.

(** X14: a template whose name is a member of [Object.prototype]
    ([constructor], [toString], ...) is never loaded: no call stores
    anything under such a name, and a call for it returns the inherited
    member without reading a file. *)
Theorem getTemplate_inherited_names (env : Env) (name : option string)
  (key : string) (w : World) :
  (forall k, k ∈ Object_prototype_keys -> templates w !! k = None) ->
  key ∈ Object_prototype_keys ->
  (forall k, k ∈ Object_prototype_keys ->
     templates (getTemplate env name w).2 !! k = None)
  /\ getTemplate env (Some key) w = (Normal (Inherited key), w).
Proof.
  intros Hinv Hkey. split.
  - intros k Hk. unfold getTemplate.
    destruct (templates_get (ToString name) w) eqn:Hget; [by apply Hinv|].
    apply templates_get_None in Hget as [_ Hnot].
    unfold bind, lift, fs_readFileSync.
    destruct (path_join _); [|by apply Hinv].
    destruct (readFileSync _ _ _); [|by apply Hinv].
    simpl. rewrite lookup_insert_ne; [by apply Hinv|].
    intros Heq. apply Hnot. by rewrite Heq.
  - unfold getTemplate, templates_get. simpl.
    by rewrite (Hinv key Hkey), bool_decide_eq_true_2.
Qed.

Lemma getTemplate_inherited_names_witness :
  (forall k, k ∈ Object_prototype_keys ->
     templates (getTemplate Sample.env (Some "slack.hbs") initial).2 !! k = None)
  /\ getTemplate Sample.env (Some "toString") initial
     = (Normal (Inherited "toString"), initial).
Proof.
  apply (getTemplate_inherited_names Sample.env (Some "slack.hbs") "toString"
           initial).
  - intros k _. reflexivity.
  - apply (bool_decide_unpack (_ ∈ _)). reflexivity.
Defined.

(** X15: a missing template name is looked up under the name
    [undefined]: once a template file of that name has been loaded, a call
    without a name returns it; before that, the call throws a [TypeError]
    and reads nothing. *)
Theorem getTemplate_missing_name (env env' : Env) (w w1 : World) (t : Template) :
  (templates w !! "undefined" = None ->
   (getTemplate env' None w).2 = w
   /\ exists e, (getTemplate env' None w).1 = Throw e /\ name e = "TypeError")
  /\ (getTemplate env (Some "undefined") w = (Normal t, w1) ->
      getTemplate env' None w1 = (Normal t, w1)).
Proof.
  split.
  - intros H. rewrite (getTemplate_undefined env' w H). simpl.
    split; [done|]. by eexists.
  - intros H.
    assert (templates_get "undefined" w1 = Some t) as Hget.
    { unfold getTemplate in H. simpl ToString in H.
      destruct (templates_get "undefined" w) as [t0|] eqn:Hget.
      - by inversion H; subst.
      - unfold bind, lift, path_join, fs_readFileSync in H. simpl in H.
        destruct (readFileSync _ _ _); inversion H; subst.
        unfold templates_get. simpl. by rewrite lookup_insert_eq. }
    unfold getTemplate. simpl ToString. by rewrite Hget.
Qed.

Lemma getTemplate_missing_name_witness :
  (getTemplate Sample.env None initial).2 = initial
  /\ exists e, (getTemplate Sample.env None initial).1 = Throw e
               /\ name e = "TypeError".
Proof.
  exact (proj1 (getTemplate_missing_name Sample.env Sample.env initial initial
                  (Compiled "")) eq_refl).
Defined.

(** ** Dispatch of a rule that has a channel and a template *)

Section Routing.

Context (env : Env).

Lemma sendNotification_cached event cfg w t :
  templates_get (ToString (template cfg)) w = Some t ->
  sendNotification env event cfg w
  = match call_template env t (formatEventData env event) w with
    | (Normal message, _) =>
        if bool_decide (type cfg = Some "slack")
        then sendSlackMessage env message w
        else if bool_decide (type cfg = Some "hibob")
             then sendHiBobShoutout env message w
             else (Normal tt, w)
    | (Throw e, _) => (Throw e, w)
    end.
Proof.
  intros Hget.
  assert (getTemplate env (template cfg) w = (Normal t, w)) as Ht.
  { unfold getTemplate. by rewrite Hget. }
  pose proof (call_template_world env t (formatEventData env event) w) as Hw.
  pose proof (sendNotification_template_failure env event cfg w) as Hf.
  rewrite Ht in Hf.
  destruct (call_template env t (formatEventData env event) w)
    as [[message|e] w2] eqn:Hm; simpl in Hw; subst w2.
  - exact (sendNotification_rendered env event cfg w t w message Ht Hm).
  - done.
Qed.

End Routing.

(** X16: the first reminder of a rule, end to end: the template file
    [config/templates/<name>] is read once and cached, rendered with the
    event's data, and the text goes in one request to the channel of the
    rule's type and to that channel only. *)
Theorem first_reminder_end_to_end (env : Env) (event : Event)
  (cfg : Notification) (name content message : string) (w : World) :
  let path := join_segments [dirname env; "config"; "templates"; name] in
  template cfg = Some name ->
  templates_get name w = None ->
  readFileSync env (length (fs_reads w)) path = Normal content ->
  Handlebars_render env content (formatEventData env event) = Normal message ->
  let r := sendNotification env event cfg w in
  r.1 = Normal tt
  /\ templates r.2 !! name = Some (Compiled content)
  /\ fs_reads r.2 = (fs_reads w ++ [path])%list
  /\ (type cfg = Some "slack" ->
      slack_requests r.2 = (slack_requests w ++ [slack_request env message])%list
      /\ hibob_requests r.2 = hibob_requests w)
  /\ (type cfg = Some "hibob" ->
      hibob_requests r.2 = (hibob_requests w ++ [hibob_request env message])%list
      /\ slack_requests r.2 = slack_requests w).
Proof.
  intros path Htpl Hget Hread Hrender. cbv zeta.
  pose proof (getTemplate_load env name w Hget) as Hload.
  cbv zeta in Hload. fold path in Hload. rewrite Hread in Hload.
  rewrite (sendNotification_rendered env event cfg w (Compiled content)
             (set_templates (<[name:=Compiled content]> (templates w))
                (set_fs_reads (fs_reads w ++ [path]) w)) message);
    [|by rewrite Htpl|by (simpl; unfold lift; rewrite Hrender)].
  rewrite sendSlackMessage_eq, sendHiBobShoutout_eq. cbv zeta.
  destruct (type cfg) as [ty|] eqn:Hty.
  - destruct (decide (ty = "slack")) as [->|Hs].
    + rewrite bool_decide_eq_true_2 by done.
      destruct (slack_chat_postMessage _ _ _); simpl;
        rewrite lookup_insert_eq; repeat split; done.
    + rewrite (bool_decide_eq_false_2 (Some ty = Some "slack")) by congruence.
      destruct (decide (ty = "hibob")) as [->|Hh].
      * rewrite bool_decide_eq_true_2 by done.
        destruct (hibob_post _ _ _); simpl;
          rewrite lookup_insert_eq; repeat split; done.
      * rewrite (bool_decide_eq_false_2 (Some ty = Some "hibob")) by congruence.
        simpl. rewrite lookup_insert_eq. repeat split; congruence.
  - rewrite !bool_decide_eq_false_2 by done.
    simpl. rewrite lookup_insert_eq. repeat split; done.
Qed.

Lemma first_reminder_end_to_end_witness :
  let r := sendNotification Sample.env Sample.meeting
             (Sample.rule "10 minutes" "slack" "slack.hbs") initial in
  r.1 = Normal tt
  /\ templates r.2 !! "slack.hbs" = Some (Compiled "Reminder")
  /\ fs_reads r.2 = ["/app/config/templates/slack.hbs"]
  /\ slack_requests r.2 = [slack_request Sample.env "Reminder"]
  /\ hibob_requests r.2 = [].
Proof.
  pose proof (first_reminder_end_to_end Sample.env Sample.meeting
                (Sample.rule "10 minutes" "slack" "slack.hbs")
                "slack.hbs" "Reminder" "Reminder" initial
                eq_refl eq_refl eq_refl eq_refl) as H.
  cbv zeta in H. destruct H as (Hr & Ht & Hf & Hs & _).
  destruct (Hs eq_refl) as [Hs1 Hs2].
  split; [exact Hr|]. split; [exact Ht|]. split; [exact Hf|].
  split; [exact Hs1|exact Hs2].
Defined.

(** X17: once the template of a rule is cached, a dispatch reads no file
    and leaves the cache as it is, whatever the files have become. *)
Theorem cached_dispatch_reads_nothing (env : Env) (event : Event)
  (cfg : Notification) (w : World) (t : Template) :
  templates_get (ToString (template cfg)) w = Some t ->
  fs_reads (sendNotification env event cfg w).2 = fs_reads w
  /\ templates (sendNotification env event cfg w).2 = templates w.
Proof.
  intros Hget. rewrite (sendNotification_cached env event cfg w t Hget).
  pose proof (call_template_world env t (formatEventData env event) w) as Hw.
  destruct (call_template env t (formatEventData env event) w)
    as [[message|e] w2]; [|done].
  rewrite sendSlackMessage_eq, sendHiBobShoutout_eq. cbv zeta.
  destruct (bool_decide _); [by destruct (slack_chat_postMessage _ _ _)|].
  destruct (bool_decide _); [by destruct (hibob_post _ _ _)|done].
Qed.

Lemma cached_dispatch_reads_nothing_witness :
  let cfg := Sample.rule "10 minutes" "slack" "slack.hbs" in
  let w1 := (sendNotification Sample.env Sample.meeting cfg initial).2 in
  fs_reads (sendNotification Sample.offline Sample.meeting cfg w1).2
  = fs_reads w1
  /\ templates (sendNotification Sample.offline Sample.meeting cfg w1).2
     = templates w1.
Proof.
  exact (cached_dispatch_reads_nothing Sample.offline Sample.meeting
           (Sample.rule "10 minutes" "slack" "slack.hbs")
           (sendNotification Sample.env Sample.meeting
              (Sample.rule "10 minutes" "slack" "slack.hbs") initial).2
           (Compiled "Reminder") eq_refl).
Defined.

(** ** The start instant and the event data *)

(** X18: the start instant of an event is read from [start.dateTime] when
    that is a non-empty string, whatever [start.date] holds, and from
    [start.date] when [dateTime] is missing or empty; it is always a time
    value of [Date] or [NaN]; the time shown in a message is this same
    instant. *)
Theorem startTime_of_event (env : Env) (event : Event) :
  is_time_value (startTime_of env event)
  /\ (forall s, dateTime (start event) = Some s -> s <> "" ->
      startTime_of env event = TimeClip (Date_parse env s))
  /\ (dateTime (start event) = None \/ dateTime (start event) = Some "" ->
      startTime_of env event = new_Date_of_value env (date (start event)))
  /\ eventTime (formatEventData env event)
     = toLocaleString env (startTime_of env event).
Proof.
  split; [|split; [|split]].
  - unfold startTime_of, new_Date_of_value.
    destruct (or_else _ _) as [s|]; [|done].
    unfold TimeClip. destruct (Date_parse env s) as [t|b|]; [|done|done].
    destruct (Z.ltb_spec maxTimeValue (Z.abs t)); simpl; [done|lia].
  - intros s Hs Hne. unfold startTime_of. rewrite Hs.
    destruct s; [done|]. done.
  - intros [H|H]; unfold startTime_of; by rewrite H.
  - done.
Qed.

Lemma startTime_of_event_witness :
  startTime_of Sample.env Sample.meeting
  = TimeClip (Date_parse Sample.env "2030-01-01T10:00:00Z").
Proof.
  apply (proj1 (proj2 (startTime_of_event Sample.env Sample.meeting))
           "2030-01-01T10:00:00Z").
  - reflexivity.
  - discriminate.
Defined.
